(** * LinkedIn-Jobs-Scraper: the paginated-feed extraction engine

    A shallow embedding of [scrape_jobs] and [export_to_csv] from
    [LinkedIn_Jobs_Scraper.ipynb].  The Selenium session is an interface
    ([WebDriver]); every call the Python code makes on it is recorded, in
    order, in the trace of the computation, so that how many scroll
    gestures were made, which page button was looked up and what
    happened after a failed call are read off that trace. *)

From Stdlib Require Import String Ascii List ZArith Lia Bool Arith.
From Stdlib Require Decimal DecimalString DecimalNat.
Import ListNotations.
Local Open Scope string_scope.
Local Open Scope list_scope.

Set Implicit Arguments.

(** ** Python and Selenium values *)

(** [selenium.webdriver.common.by.By]: the locator strategies. *)
Inductive By : Type :=
| XPATH | ID | CLASS_NAME | LINK_TEXT | CSS_SELECTOR | TAG_NAME.

(** The exceptions that can reach [scrape_jobs] and [export_to_csv].
    [NoSuchElementException] is the only one the source catches;
    [WebDriverException] stands for every other failure of the session
    (unreachable browser, stale element, ...). *)
Inductive Exn : Type :=
| NoSuchElementException
| WebDriverException
| ValueError
| TypeError.

(** A Python evaluation either yields a value or raises. *)
Inductive Outcome (A : Type) : Type :=
| Ok (a : A)
| Raised (e : Exn).
Arguments Raised {A} e.

Definition exn_of {A} (o : Outcome A) : option Exn :=
  match o with Ok _ => None | Raised e => Some e end.

(** ** String constants of the source *)

Definition dq : string := String "034"%char EmptyString.
Definition nl : string := String "010"%char EmptyString.

(** [str(n)] for a non-negative Python int. *)
Definition str (n : nat) : string :=
  DecimalString.NilEmpty.string_of_uint (Nat.to_uint n).

Definition no_matching_jobs_xpath : string :=
  "/html/body/div[5]/div[3]/div[4]/div/div[1]/div/h1".
Definition footer_xpath : string :=
  "//*[@id=" ++ dq ++ "main" ++ dq ++ "]/div/div[1]/div".
Definition job_titles_class : string :=
  "full-width.artdeco-entity-lockup__title.ember-view".
Definition job_locations_class : string := "artdeco-entity-lockup__caption".
Definition company_names_class : string :=
  "job-card-container__primary-description ".

(** [f'li[data-test-pagination-page-btn="{page_number}"]'] *)
Definition page_btn_selector (page_number : nat) : string :=
  "li[data-test-pagination-page-btn=" ++ dq ++ str page_number ++ dq ++ "]".

Definition msg_no_matching_jobs : string := nl ++ "No matching jobs found.".
Definition msg_search_begins : string :=
  nl ++ "---> Job search begins...." ++ nl.
Definition msg_please_wait : string := "Please wait, searching for jobs....".

(** Python's [range(a, b)]. *)
Definition range (a b : nat) : list nat := seq a (b - a).

(** ** The Selenium session *)

(** The calls the source makes on the session.  [W] is the state of the
    browser, [E] the type of [WebElement] handles.  Every call may change
    the browser (the page renders asynchronously) and every call on the
    session may raise. *)
Class WebDriver (W E : Type) : Type := {
  find_element : By -> string -> W -> Outcome E * W;
  find_elements : By -> string -> W -> Outcome (list E) * W;
  element_find_element : E -> By -> string -> W -> Outcome E * W;
  element_text : E -> W -> Outcome string * W;
  element_get_attribute : E -> string -> W -> Outcome (option string) * W;
  element_click : E -> W -> Outcome unit * W;
  scroll_from_origin : E -> Z -> Z -> W -> Outcome unit * W;
  time_sleep : nat -> W -> W
}.

(** ** pandas *)

(** One row of the frame built by [export_to_csv]; its columns are
    ['Job Title'], ['Location'], ['Company'] and ['Link']. *)
Record ListingRecord : Type := {
  title : string;
  location : string;
  employer : string;
  link : option string
}.

Definition DataFrame : Type := list ListingRecord.

Fixpoint rows (titles locations companies : list string)
    (links : list (option string)) : DataFrame :=
  match titles, locations, companies, links with
  | t :: ts, l :: ls, c :: cs, k :: ks =>
      {| title := t; location := l; employer := c; link := k |}
      :: rows ts ls cs ks
  | _, _, _, _ => []
  end.

(** [pd.DataFrame({'Job Title': titles, 'Location': locations,
    'Company': companies, 'Link': links})]: pandas builds a frame from a
    dict of lists only when all the lists have the same length, and
    raises [ValueError] ("All arrays must be of the same length")
    otherwise. *)
Definition pd_DataFrame (titles locations companies : list string)
    (links : list (option string)) : Outcome DataFrame :=
  if ((length titles =? length locations)
      && (length titles =? length companies)
      && (length titles =? length links))%nat
  then Ok (rows titles locations companies links)
  else Raised ValueError.

Section Monad.

Context {W E : Type} {driver : WebDriver W E}.

(** One entry of the trace: a call on the session, the clock, the
    console or the file system, and the exception it raised, if any. *)
Inductive Call : Type :=
| FindElement (by_ : By) (value : string)
| FindElements (by_ : By) (value : string)
| ElementFindElement (e : E) (by_ : By) (value : string)
| ElementText (e : E)
| ElementGetAttribute (e : E) (name : string)
| ElementClick (e : E)
| ScrollFromOrigin (origin : E) (dx dy : Z)
| Sleep (secs : nat)
| Print (s : string)
| MakeDirs (path : string)
| ToCsv (path : string) (df : DataFrame).

Record Event : Type := { ev_call : Call; ev_exn : option Exn }.

(** ** The monad: browser state, exceptions, trace *)

Definition M (A : Type) : Type := W -> Outcome A * W * list Event.

Definition ret {A} (a : A) : M A := fun w => (Ok a, w, []).

Definition bind {A B} (m : M A) (f : A -> M B) : M B :=
  fun w =>
    match m w with
    | (Ok a, w1, t1) =>
        match f a w1 with (o, w2, t2) => (o, w2, t1 ++ t2) end
    | (Raised e, w1, t1) => (Raised e, w1, t1)
    end.

(** [try: m  except NoSuchElementException: h]; any other exception, and
    any exception raised by [h] itself, propagates. *)
Definition try_except_NoSuchElement {A} (m h : M A) : M A :=
  fun w =>
    match m w with
    | (Raised NoSuchElementException, w1, t1) =>
        match h w1 with (o, w2, t2) => (o, w2, t1 ++ t2) end
    | r => r
    end.

(** [raise e] *)
Definition raise {A} (e : Exn) : M A := fun w => (Raised e, w, []).

(** A call: run it and record it. *)
Definition call {A} (c : Call) (f : W -> Outcome A * W) : M A :=
  fun w =>
    match f w with
    | (o, w') => (o, w', [{| ev_call := c; ev_exn := exn_of o |}])
    end.

End Monad.

Arguments Call : clear implicits.
Arguments Event : clear implicits.

Declare Scope py_scope.
Delimit Scope py_scope with py.
Notation "x <- m ;; k" := (bind m (fun x => k))
  (at level 61, m at next level, right associativity) : py_scope.
Notation "m ;; k" := (bind m (fun _ => k))
  (at level 61, right associativity) : py_scope.
Local Open Scope py_scope.

Section Scraper.

Context {W E : Type} {driver : WebDriver W E}.

Local Abbreviation M := (@M W E).

(** *** The calls of the source, each recorded in the trace *)

(** [driver.find_element(by, value)] *)
Definition driver_find_element (by_ : By) (value : string) : M E :=
  call (FindElement by_ value) (find_element by_ value).

(** [driver.find_elements(by, value)] *)
Definition driver_find_elements (by_ : By) (value : string) : M (list E) :=
  call (FindElements by_ value) (find_elements by_ value).

(** [e.find_element(by, value)] *)
Definition elem_find_element (e : E) (by_ : By) (value : string) : M E :=
  call (ElementFindElement e by_ value) (element_find_element e by_ value).

(** [e.text] *)
Definition text (e : E) : M string :=
  call (ElementText e) (element_text e).

(** [e.get_attribute(name)]; Python's [None] when the attribute is absent. *)
Definition get_attribute (e : E) (name : string) : M (option string) :=
  call (ElementGetAttribute e name) (element_get_attribute e name).

(** [e.click()] *)
Definition click (e : E) : M unit :=
  call (ElementClick e) (element_click e).

(** [ScrollOrigin.from_element(element)]: offsets default to 0. *)
Record ScrollOrigin : Type :=
  { origin_element : E; x_offset : Z; y_offset : Z }.
Definition from_element (element : E) : ScrollOrigin :=
  {| origin_element := element; x_offset := 0; y_offset := 0 |}.

(** [ActionChains(driver).scroll_from_origin(origin, dx, dy).perform()] *)
Definition perform_scroll (origin : ScrollOrigin) (dx dy : Z) : M unit :=
  call (ScrollFromOrigin (origin_element origin) dx dy)
       (scroll_from_origin (origin_element origin) dx dy).

(** [time.sleep(secs)]: the browser goes on rendering meanwhile. *)
Definition sleep (secs : nat) : M unit :=
  call (Sleep secs) (fun w => (Ok tt, time_sleep secs w)).

(** [print(s)] *)
Definition print (s : string) : M unit :=
  call (Print s) (fun w => (Ok tt, w)).

(** *** Loops *)

(** [for x in xs: body], where [body] updates the local variables [L]. *)
Fixpoint for_each {X L : Type} (xs : list X) (body : X -> L -> M L) (l : L)
  : M L :=
  match xs with
  | [] => ret l
  | x :: xs' => l' <- body x l ;; for_each xs' body l'
  end.

(** How the body of a loop ended: fell through, or executed [break]. *)
Inductive Ctl : Type := Continue | Break.

(** [for x in xs: body], where [body] may [break]. *)
Fixpoint for_each_break {X L : Type} (xs : list X)
    (body : X -> L -> M (Ctl * L)) (l : L) : M L :=
  match xs with
  | [] => ret l
  | x :: xs' =>
      r <- body x l ;;
      match r with
      | (Continue, l') => for_each_break xs' body l'
      | (Break, l') => ret l'
      end
  end.

(** *** [scrape_jobs] *)

(** The local variables of [scrape_jobs] (lines 278-282). *)
Record Locals : Type := {
  job_titles_list : list string;
  job_links_list : list (option string);
  job_locations_list : list string;
  company_names_list : list string;
  page_number : nat
}.

Definition append_job_title (l : Locals) (x : string) : Locals :=
  {| job_titles_list := job_titles_list l ++ [x];
     job_links_list := job_links_list l;
     job_locations_list := job_locations_list l;
     company_names_list := company_names_list l;
     page_number := page_number l |}.

Definition append_job_link (l : Locals) (x : option string) : Locals :=
  {| job_titles_list := job_titles_list l;
     job_links_list := job_links_list l ++ [x];
     job_locations_list := job_locations_list l;
     company_names_list := company_names_list l;
     page_number := page_number l |}.

Definition append_job_location (l : Locals) (x : string) : Locals :=
  {| job_titles_list := job_titles_list l;
     job_links_list := job_links_list l;
     job_locations_list := job_locations_list l ++ [x];
     company_names_list := company_names_list l;
     page_number := page_number l |}.

Definition append_company_name (l : Locals) (x : string) : Locals :=
  {| job_titles_list := job_titles_list l;
     job_links_list := job_links_list l;
     job_locations_list := job_locations_list l;
     company_names_list := company_names_list l ++ [x];
     page_number := page_number l |}.

Definition incr_page_number (l : Locals) : Locals :=
  {| job_titles_list := job_titles_list l;
     job_links_list := job_links_list l;
     job_locations_list := job_locations_list l;
     company_names_list := company_names_list l;
     page_number := page_number l + 1 |}.

(** Lines 294-296: six scroll gestures from the footer element, one
    second apart. *)
Definition scroll_to_bottom (scroll_origin : ScrollOrigin) : M unit :=
  for_each (range 0 6)
    (fun _ _ => perform_scroll scroll_origin 0 550 ;; sleep 1) tt.

(** Lines 298-301. *)
Definition collect_job_titles (job_titles : list E) (l : Locals) : M Locals :=
  for_each job_titles
    (fun job_title l =>
       t <- text job_title ;;
       ret (append_job_title l t)) l.

(** Lines 308-309.  The [find_element] here is outside every [try]. *)
Definition collect_job_links (job_titles : list E) (l : Locals) : M Locals :=
  for_each job_titles
    (fun job_title l =>
       t <- text job_title ;;
       a <- elem_find_element job_title LINK_TEXT t ;;
       href <- get_attribute a "href" ;;
       ret (append_job_link l href)) l.

(** Lines 311-314. *)
Definition collect_job_locations (l : Locals) : M Locals :=
  job_locations <- driver_find_elements CLASS_NAME job_locations_class ;;
  for_each job_locations
    (fun job_location l =>
       t <- text job_location ;;
       ret (append_job_location l t)) l.

(** Lines 316-319. *)
Definition collect_company_names (l : Locals) : M Locals :=
  company_names <- driver_find_elements CLASS_NAME company_names_class ;;
  for_each company_names
    (fun company_name l =>
       t <- text company_name ;;
       ret (append_company_name l t)) l.

(** Lines 321-327: click the button of page [page_number]; [break] when
    it does not exist. *)
Definition next_page (l : Locals) : M (Ctl * Locals) :=
  try_except_NoSuchElement
    (li <- driver_find_element CSS_SELECTOR
             (page_btn_selector (page_number l)) ;;
     page_button <- elem_find_element li TAG_NAME "button" ;;
     click page_button ;;
     let l := incr_page_number l in
     sleep 2 ;;
     ret (Continue, l))
    (ret (Break, l)).

(** Lines 288-327: the body of [for i in range(1, 5)]. *)
Definition scrape_page (i : nat) (l : Locals) : M (Ctl * Locals) :=
  print msg_please_wait ;;
  footer <- driver_find_element XPATH footer_xpath ;;
  let scroll_origin := from_element footer in
  scroll_to_bottom scroll_origin ;;
  job_titles <- driver_find_elements CLASS_NAME job_titles_class ;;
  l <- collect_job_titles job_titles l ;;
  l <- collect_job_links job_titles l ;;
  l <- collect_job_locations l ;;
  l <- collect_company_names l ;;
  next_page l.

(** What [scrape_jobs] returns when it returns a tuple:
    [job_titles_list, job_locations_list, company_names_list,
    job_links_list], in that order (line 329). *)
Definition Information : Type :=
  (list string * list string * list string * list (option string))%type.

Definition information_of (l : Locals) : Information :=
  (job_titles_list l, job_locations_list l, company_names_list l,
   job_links_list l).

Definition initial_locals : Locals :=
  {| job_titles_list := [];
     job_links_list := [];
     job_locations_list := [];
     company_names_list := [];
     page_number := 2 |}.

(** The number of iterations of [for i in range(1, 5)]. *)
Definition MAX_PAGES : nat := length (range 1 5).

(** Lines 278-329: the handler of the outer [try]. *)
Definition scrape_pages : M (option Information) :=
  print msg_search_begins ;;
  l <- for_each_break (range 1 5) scrape_page initial_locals ;;
  ret (Some (information_of l)).

(** [scrape_jobs(driver)].  [None] is Python's [None]: when the outer
    [try] body completes, control falls off the end of the function. *)
Definition scrape_jobs : M (option Information) :=
  try_except_NoSuchElement
    (no_matching_jobs <- driver_find_element XPATH no_matching_jobs_xpath ;;
     print msg_no_matching_jobs ;;
     ret None)
    scrape_pages.

(** *** [export_to_csv] and the caller *)

(** [os.makedirs(path, exist_ok=True)] *)
Definition makedirs (path : string) : M unit :=
  call (MakeDirs path) (fun w => (Ok tt, w)).

(** [df.to_csv(path, index=None)] *)
Definition to_csv (df : DataFrame) (path : string) : M unit :=
  call (ToCsv path df) (fun w => (Ok tt, w)).

(** [os.path.join(a, b)] for a directory [a] that ends in a slash. *)
Definition os_path_join (a b : string) : string :=
  if String.prefix "/" b then b else a ++ b.

(** A pure Python expression that may raise. *)
Definition eval {A} (o : Outcome A) : M A :=
  match o with Ok a => ret a | Raised e => raise e end.

(** Lines 348-357. *)
Definition export_to_csv (job_search_domain : string)
    (job_titles_list job_locations_list company_names_list : list string)
    (job_links_list : list (option string)) : M unit :=
  let folder_path := "Jobs/" in
  makedirs folder_path ;;
  df <- eval (pd_DataFrame job_titles_list job_locations_list
                           company_names_list job_links_list) ;;
  to_csv df (os_path_join folder_path (job_search_domain ++ " Jobs.csv")).

(** Lines 421-422: [information = scrape_jobs(driver)] followed by
    [export_to_csv(job_search_domain, *information)].  Unpacking [None]
    with [*] raises [TypeError]. *)
Definition scrape_and_export (job_search_domain : string) : M unit :=
  information <- scrape_jobs ;;
  match information with
  | None => raise TypeError
  | Some (job_titles_list, job_locations_list, company_names_list,
          job_links_list) =>
      export_to_csv job_search_domain job_titles_list job_locations_list
                    company_names_list job_links_list
  end.

(** *** Reading a trace *)

Definition failed (ev : Event E) : bool :=
  match ev_exn ev with Some _ => true | None => false end.

Definition count (p : Event E -> bool) (t : list (Event E)) : nat :=
  length (filter p t).

(** A scroll gesture. *)
Definition is_scroll (ev : Event E) : bool :=
  match ev_call ev with ScrollFromOrigin _ _ _ => true | _ => false end.

Definition scroll_gestures (t : list (Event E)) : nat := count is_scroll t.

(** A call of the extraction pass (lines 298-319): a node-set query, a
    text read, a link lookup or an attribute read. *)
Definition is_extraction (ev : Event E) : bool :=
  match ev_call ev with
  | FindElements _ _ | ElementText _ | ElementGetAttribute _ _
  | ElementFindElement _ LINK_TEXT _ => true
  | _ => false
  end.

Definition extraction_calls (t : list (Event E)) : nat :=
  count is_extraction t.

(** The start of an iteration of [for i in range(1, 5)] (line 288). *)
Definition is_iteration_start (ev : Event E) : bool :=
  match ev_call ev with
  | Print s => String.eqb s msg_please_wait
  | _ => false
  end.

(** The start of an extraction pass (line 298). *)
Definition is_title_query (ev : Event E) : bool :=
  match ev_call ev with
  | FindElements CLASS_NAME v => String.eqb v job_titles_class
  | _ => false
  end.

(** The number of scroll-and-extract iterations of a session. *)
Definition pagesVisited (t : list (Event E)) : nat :=
  count is_iteration_start t.

Definition extraction_passes (t : list (Event E)) : nat :=
  count is_title_query t.

(** A lookup of the pagination control (line 322): the [li] of the
    page, or the [button] inside it. *)
Definition is_page_lookup (ev : Event E) : bool :=
  match ev_call ev with
  | FindElement CSS_SELECTOR _ | ElementFindElement _ TAG_NAME _ => true
  | _ => false
  end.

(** An activation of a pagination control that succeeded (line 323). *)
Definition is_click_ok (ev : Event E) : bool :=
  match ev_call ev, ev_exn ev with
  | ElementClick _, None => true
  | _, _ => false
  end.

(** *** The terminal state of a session *)

Inductive TerminalReason : Type :=
| EXHAUSTED | NO_RESULTS | CAP_REACHED | READ_FAILURE.

(** The source keeps no such variable: the reason is read off what
    [scrape_jobs] returned and how its trace ended.  [None] is returned
    after the sentinel was found; a tuple is returned either
    after [break] (the last call is the pagination lookup that raised)
    or when [range(1, 5)] is used up; an exception that leaves
    [scrape_jobs] leaves no terminal state at all. *)
Definition terminalReason (o : Outcome (option Information))
    (t : list (Event E)) : option TerminalReason :=
  match o with
  | Raised _ => None
  | Ok None => Some NO_RESULTS
  | Ok (Some _) =>
      match rev t with
      | ev :: _ => if failed ev then Some EXHAUSTED else Some CAP_REACHED
      | [] => Some CAP_REACHED
      end
  end.

(** The records of a session: the rows of the frame that
    [export_to_csv] builds from what [scrape_jobs] returned; none when
    there is nothing to build a frame from. *)
Definition records (o : Outcome (option Information)) : DataFrame :=
  match o with
  | Ok (Some (job_titles_list, job_locations_list, company_names_list,
              job_links_list)) =>
      match pd_DataFrame job_titles_list job_locations_list
                         company_names_list job_links_list with
      | Ok df => df
      | Raised _ => []
      end
  | _ => []
  end.

End Scraper.

(** ** A simulated browser

    A static feed of result pages behind the [WebDriver] interface: the
    page shown answers the node-set queries, the button of page [n]
    exists when the feed has a page [n], and clicking it shows that
    page.  The session may die: [lifetime = Some n] lets [n] more calls
    through and fails every later one. *)

Module Browser.

Record Anchor : Type := { anchor_text : string; href : option string }.

(** A title node and the [<a>] inside it, if it has one. *)
Record Listing : Type :=
  { listing_title : string; listing_anchor : option Anchor }.

Record Page : Type := {
  listings : list Listing;
  captions : list string;
  descriptions : list string
}.

Record State : Type := {
  feed : list Page;
  current : nat;
  no_results : bool;
  lifetime : option nat
}.

(** [WebElement] handles. *)
Inductive Node : Type :=
| Sentinel
| Footer
| TitleNode (l : Listing)
| AnchorNode (a : Anchor)
| TextNode (s : string)
| PageLi (n : nat)
| PageButton (n : nat).

Definition empty_page : Page :=
  {| listings := []; captions := []; descriptions := [] |}.

(** The page on screen; [current] counts from 0. *)
Definition current_page (b : State) : Page :=
  nth (current b) (feed b) empty_page.

Definition show (n : nat) (b : State) : State :=
  {| feed := feed b; current := n;
     no_results := no_results b; lifetime := lifetime b |}.

(** Every call goes through the session. *)
Definition session {A : Type} (f : State -> Outcome A * State) (b : State)
  : Outcome A * State :=
  match lifetime b with
  | None => f b
  | Some 0 => (Raised WebDriverException, b)
  | Some (S n) =>
      f {| feed := feed b; current := current b;
           no_results := no_results b; lifetime := Some n |}
  end.

Definition lookup (by_ : By) (value : string) (b : State) : Outcome Node :=
  match by_ with
  | XPATH =>
      if String.eqb value no_matching_jobs_xpath then
        if no_results b then Ok Sentinel else Raised NoSuchElementException
      else if String.eqb value footer_xpath then Ok Footer
      else Raised NoSuchElementException
  | CSS_SELECTOR =>
      match find (fun n => String.eqb value (page_btn_selector n))
                 (seq 1 (length (feed b))) with
      | Some n => Ok (PageLi n)
      | None => Raised NoSuchElementException
      end
  | _ => Raised NoSuchElementException
  end.

Definition query (by_ : By) (value : string) (b : State) : list Node :=
  match by_ with
  | CLASS_NAME =>
      if String.eqb value job_titles_class then
        map TitleNode (listings (current_page b))
      else if String.eqb value job_locations_class then
        map TextNode (captions (current_page b))
      else if String.eqb value company_names_class then
        map TextNode (descriptions (current_page b))
      else []
  | _ => []
  end.

Definition lookup_in (e : Node) (by_ : By) (value : string)
  : Outcome Node :=
  match e, by_ with
  | TitleNode l, LINK_TEXT =>
      match listing_anchor l with
      | Some a =>
          if String.eqb value (anchor_text a) then Ok (AnchorNode a)
          else Raised NoSuchElementException
      | None => Raised NoSuchElementException
      end
  | PageLi n, TAG_NAME =>
      if String.eqb value "button" then Ok (PageButton n)
      else Raised NoSuchElementException
  | _, _ => Raised NoSuchElementException
  end.

Definition node_text (e : Node) : string :=
  match e with
  | TitleNode l => listing_title l
  | AnchorNode a => anchor_text a
  | TextNode s => s
  | _ => ""
  end.

Definition node_attribute (e : Node) (name : string) : option string :=
  match e with
  | AnchorNode a => if String.eqb name "href" then href a else None
  | _ => None
  end.

Definition activate (e : Node) (b : State) : State :=
  match e with
  | PageButton n => show (n - 1) b
  | _ => b
  end.

#[global] Instance chrome : WebDriver State Node := {
  find_element by_ value := session (fun b => (lookup by_ value b, b));
  find_elements by_ value := session (fun b => (Ok (query by_ value b), b));
  element_find_element e by_ value :=
    session (fun b => (lookup_in e by_ value, b));
  element_text e := session (fun b => (Ok (node_text e), b));
  element_get_attribute e name :=
    session (fun b => (Ok (node_attribute e name), b));
  element_click e := session (fun b => (Ok tt, activate e b));
  scroll_from_origin _ _ _ := session (fun b => (Ok tt, b));
  time_sleep _ b := b
}.

(** A session that just reached the first result page of [pages]. *)
Definition open (pages : list Page) : State :=
  {| feed := pages; current := 0; no_results := false; lifetime := None |}.

(** The same session, dying after [n] calls. *)
Definition open_for (n : nat) (pages : list Page) : State :=
  {| feed := pages; current := 0; no_results := false; lifetime := Some n |}.

(** A search that matched nothing. *)
Definition nothing_found : State :=
  {| feed := []; current := 0; no_results := true; lifetime := None |}.

(** A listing whose link resolves: the text of its [<a>] is its title. *)
Definition listing (t : string) (url : string) : Listing :=
  {| listing_title := t;
     listing_anchor := Some {| anchor_text := t; href := Some url |} |}.

Definition resolves (l : Listing) : bool :=
  match listing_anchor l with
  | Some a => String.eqb (listing_title l) (anchor_text a)
  | None => false
  end.

(** A page all of whose links resolve. *)
Definition page_ok (p : Page) : bool := forallb resolves (listings p).

Definition page_titles (p : Page) : list string :=
  map listing_title (listings p).

Definition page_links (p : Page) : list (option string) :=
  map (fun l => match listing_anchor l with
                | Some a => href a
                | None => None
                end) (listings p).

End Browser.

(** ** Scenarios *)

Definition job (name : string) : Browser.Listing :=
  Browser.listing name ("https://www.linkedin.com/jobs/view/" ++ name)%string.

(** A result page with two listings. *)
Definition page_of (name : string) : Browser.Page :=
  {| Browser.listings := [job (name ++ " engineer")%string;
                          job (name ++ " analyst")%string];
     Browser.captions := [(name ++ " Pune")%string;
                          (name ++ " Remote")%string];
     Browser.descriptions := [(name ++ " Acme")%string;
                              (name ++ " Globex")%string] |}.

Definition one_page : list Browser.Page := [page_of "p1"].
Definition two_pages : list Browser.Page := [page_of "p1"; page_of "p2"].
Definition five_pages : list Browser.Page :=
  map page_of ["p1"; "p2"; "p3"; "p4"; "p5"].

(** Five title nodes, the third without an [<a>]. *)
Definition broken_link_page : Browser.Page :=
  {| Browser.listings :=
       [job "a"; job "b";
        {| Browser.listing_title := "c"; Browser.listing_anchor := None |};
        job "d"; job "e"];
     Browser.captions := ["l1"; "l2"; "l3"; "l4"; "l5"];
     Browser.descriptions := ["c1"; "c2"; "c3"; "c4"; "c5"] |}.

(** Two title nodes and a single caption. *)
Definition lopsided_page : Browser.Page :=
  {| Browser.listings := [job "a"; job "b"];
     Browser.captions := ["l1"];
     Browser.descriptions := ["c1"; "c2"] |}.

(** The local variables with the given values, and the session on the
    feed [pages] that shows its page [c] (counted from 0). *)
Abbreviation locals ts ks ls cs n :=
  {| job_titles_list := ts; job_links_list := ks;
     job_locations_list := ls; company_names_list := cs;
     page_number := n |}.

Abbreviation at_page pages c := (Browser.show c (Browser.open pages)).

(** ** Shapes of traces *)

Section Shapes.

Context {W E : Type} {driver : WebDriver W E}.

Local Abbreviation M := (@M W E).
Local Abbreviation Event := (Event E).

Definition outcome {A} (r : Outcome A * W * list Event) : Outcome A :=
  fst (fst r).
Definition trace {A} (r : Outcome A * W * list Event) : list Event :=
  snd r.
Definition world {A} (r : Outcome A * W * list Event) : W :=
  snd (fst r).

(** The trace entry of a call that returned, and of one that raised. *)
Definition returned (c : Call E) : Event :=
  {| ev_call := c; ev_exn := None |}.
Definition threw (c : Call E) (e : Exn) : Event :=
  {| ev_call := c; ev_exn := Some e |}.

(** [t] ends with the calls [suffix]. *)
Definition ends_with (suffix t : list Event) : Prop :=
  skipn (length t - length suffix) t = suffix.

(** [l'] holds what [l] holds, and possibly more after it. *)
Definition extends (l l' : Locals) : Prop :=
  (exists xs, job_titles_list l' = job_titles_list l ++ xs)
  /\ (exists xs, job_links_list l' = job_links_list l ++ xs)
  /\ (exists xs, job_locations_list l' = job_locations_list l ++ xs)
  /\ (exists xs, company_names_list l' = company_names_list l ++ xs).

(** A call of the pagination [try] (lines 322-323). *)
Definition in_pagination (ev : Event) : bool :=
  match ev_call ev with
  | FindElement CSS_SELECTOR _ | ElementFindElement _ TAG_NAME _
  | ElementClick _ => true
  | _ => false
  end.

Definition outside_pagination (ev : Event) : bool :=
  negb (in_pagination ev).

(** [clean C x t]: [t] is a run of successful calls of class [C], closed
    by one failed call exactly when [x] is the exception raised. *)
Inductive clean (C : Event -> bool) : option Exn -> list Event -> Prop :=
| clean_done : clean C None []
| clean_step ev t x :
    C ev = true -> ev_exn ev = None -> clean C x t -> clean C x (ev :: t)
| clean_raise ev e :
    C ev = true -> ev_exn ev = Some e -> clean C (Some e) [ev].

Definition cleanly {A} (C : Event -> bool) (m : M A) : Prop :=
  forall w, clean C (exn_of (outcome (m w))) (trace (m w)).

(** [halts x t]: [t] is a run of successful calls closed by one failed
    call, which either raised [x] out of the loop or, being a call of
    the pagination [try] that raised [NoSuchElementException], led to
    [break] ([x = None]). *)
Inductive halts : option Exn -> list Event -> Prop :=
| halts_step ev t x :
    ev_exn ev = None -> halts x t -> halts x (ev :: t)
| halts_raise ev e :
    ev_exn ev = Some e ->
    (in_pagination ev = true -> e <> NoSuchElementException) ->
    halts (Some e) [ev]
| halts_break ev :
    ev_exn ev = Some NoSuchElementException ->
    in_pagination ev = true ->
    halts None [ev].

(** [lookups_follow n t]: with the expected page index at [n] and
    incremented by every successful click of [t], every lookup of a
    page [li] in [t] is for the expected index. *)
Fixpoint lookups_follow (n : nat) (t : list Event) : Prop :=
  match t with
  | [] => True
  | ev :: t' =>
      match ev_call ev with
      | FindElement CSS_SELECTOR v => v = page_btn_selector n
      | _ => True
      end
      /\ lookups_follow (if is_click_ok ev then n + 1 else n) t'
  end.

(** [m] makes at most [n] calls that satisfy [p]. *)
Definition bounded {A} (p : Event -> bool) (n : nat) (m : M A) : Prop :=
  forall w, count p (trace (m w)) <= n.

(** The postcondition of one iteration that starts with page index
    [n], and of a run of iterations. *)
Definition iteration_post (n : nat) (o : Outcome (Ctl * Locals))
    (t : list Event) : Prop :=
  lookups_follow n t /\
  match o with
  | Ok (Continue, l') =>
      Forall (fun ev => ev_exn ev = None) t
      /\ page_number l' = n + count is_click_ok t
  | Ok (Break, _) => halts None t
  | Raised e => halts (Some e) t
  end.

Definition loop_post (n : nat) (x : option Exn) (t : list Event) : Prop :=
  lookups_follow n t /\
  (Forall (fun ev => ev_exn ev = None) t /\ x = None \/ halts x t).

(** The three ways a session of [scrape_jobs] can go: the sentinel is
    found; its lookup raises something else than
    [NoSuchElementException]; or the handler runs the loop. *)
Inductive session_shape
  : Outcome (option Information) -> list Event -> Prop :=
| session_no_results ev0 :
    ev_call ev0 = FindElement XPATH no_matching_jobs_xpath ->
    ev_exn ev0 = None ->
    session_shape (Ok None)
      [ev0; {| ev_call := Print msg_no_matching_jobs; ev_exn := None |}]
| session_crash ev0 e :
    ev_call ev0 = FindElement XPATH no_matching_jobs_xpath ->
    ev_exn ev0 = Some e ->
    e <> NoSuchElementException ->
    session_shape (Raised e) [ev0]
| session_scan ev0 o t :
    ev_call ev0 = FindElement XPATH no_matching_jobs_xpath ->
    ev_exn ev0 = Some NoSuchElementException ->
    loop_post 2 (exn_of o) t ->
    (forall r, o = Ok r -> exists info, r = Some info) ->
    session_shape o
      (ev0 :: {| ev_call := Print msg_search_begins; ev_exn := None |} :: t).

End Shapes.

(** ** Measures of a session *)

Section Measures.

Context {W E : Type} {driver : WebDriver W E}.

Local Abbreviation M := (@M W E).
Local Abbreviation Event := (Event E).

(** The sum of [f] over the calls of a trace. *)
Definition weight (f : Event -> nat) (t : list Event) : nat :=
  list_sum (map f t).

(** [m] makes calls of total weight at most [n]. *)
Definition costs {A} (f : Event -> nat) (n : nat) (m : M A) : Prop :=
  forall w, weight f (trace (m w)) <= n.

Definition indicator (p : Event -> bool) (ev : Event) : nat :=
  if p ev then 1 else 0.

(** The seconds a call sleeps. *)
Definition seconds (ev : Event) : nat :=
  match ev_call ev with Sleep secs => secs | _ => 0 end.

Definition seconds_slept (t : list Event) : nat := weight seconds t.

(** A scroll gesture by anything else than 550 pixels down. *)
Definition is_other_scroll (ev : Event) : bool :=
  match ev_call ev with
  | ScrollFromOrigin _ dx dy => negb ((dx =? 0)%Z && (dy =? 550)%Z)
  | _ => false
  end.

(** The lookup of the no-results sentinel (line 274). *)
Definition is_sentinel_lookup (ev : Event) : bool :=
  match ev_call ev with
  | FindElement XPATH v => String.eqb v no_matching_jobs_xpath
  | _ => false
  end.
(** The lengths of two of the accumulators. *)
(** A lookup of the [li] of a page (line 322). *)
Definition is_li_lookup (ev : Event) : bool :=
  match ev_call ev with
  | FindElement CSS_SELECTOR _ => true
  | _ => false
  end.

(** [paced credit t]: every successful click of [t] uses up one lookup
    of a page [li] made before it, or one of the [credit] lookups made
    before [t]. *)
Fixpoint paced (credit : nat) (t : list Event) : Prop :=
  match t with
  | [] => True
  | ev :: t' =>
      if is_click_ok ev
      then match credit with
           | 0 => False
           | S c => paced c t'
           end
      else paced (if is_li_lookup ev then S credit else credit) t'
  end.

(** Every trace of [m] satisfies [P]. *)
Definition always {A} (P : list Event -> Prop) (m : M A) : Prop :=
  forall w, P (trace (m w)).


End Measures.

(** ** The other cells of the notebook *)

(** [Keys.ENTER], the code point U+E007 (here in UTF-8). *)
Definition Keys_ENTER : string :=
  String "238"%char (String "128"%char (String "135"%char EmptyString)).

Definition linkedin_feed_url : string := "https://www.linkedin.com/feed/".
Definition sign_in_xpath : string := "/html/body/div[1]/main/div/p/a".
Definition final_sign_in_xpath : string :=
  "//*[@id=" ++ dq ++ "organic-div" ++ dq ++ "]/form/div[3]/button".
Definition search_box_xpath : string :=
  "//*[@id=" ++ dq ++ "global-nav-typeahead" ++ dq ++ "]/input".
Definition jobs_button_xpath : string :=
  "//button[text()=" ++ dq ++ "Jobs" ++ dq ++ "]".
Definition username_prompt : string := "Enter your LinkedIn username: ".
Definition password_prompt : string := "Enter your LinkedIn password: ".
Definition job_search_prompt : string :=
  nl ++ "Please specify the job domain/job role that you are searching for: "
     ++ nl.
Definition msg_end_of_job_search : string := nl ++ "End Of Job Search!".

(** The calls of the other cells: on the browser as a whole, on the
    keyboard of an element, and on the console.  Like the calls of
    [WebDriver], each may change the state and each may raise. *)
Class Machine (W E : Type) : Type := {
  webdriver_Chrome : W -> Outcome unit * W;
  driver_maximize_window : W -> Outcome unit * W;
  driver_get : string -> W -> Outcome unit * W;
  element_send_keys : E -> string -> W -> Outcome unit * W;
  driver_implicitly_wait : nat -> W -> Outcome unit * W;
  driver_close : W -> Outcome unit * W;
  getpass_getpass : string -> W -> Outcome string * W;
  builtins_input : string -> W -> Outcome string * W
}.

Section Notebook.

Context {W E : Type} {driver : WebDriver W E} {machine : Machine W E}.

Inductive Action : Type :=
| StartChrome
| MaximizeWindow
| Get (url : string)
| SendKeys (e : E) (keys : string)
| ImplicitlyWait (secs : nat)
| CloseWindow.

(** One entry of the trace of the notebook: a call already known to
    [scrape_jobs] and [export_to_csv], another call with the exception
    it raised, if any, or a prompt on the console with what was
    answered ([hidden] for [getpass]). *)
Inductive Step : Type :=
| Session (ev : Event E)
| Desk (a : Action) (x : option Exn)
| Prompt (hidden : bool) (prompt : string) (answer : Outcome string).

Definition Script (A : Type) : Type := W -> Outcome A * W * list Step.

Definition done {A} (a : A) : Script A := fun w => (Ok a, w, []).

Definition and_then {A B} (m : Script A) (f : A -> Script B) : Script B :=
  fun w =>
    match m w with
    | (Ok a, w1, t1) =>
        match f a w1 with (o, w2, t2) => (o, w2, t1 ++ t2) end
    | (Raised e, w1, t1) => (Raised e, w1, t1)
    end.

(** A computation of the scraper, run as part of the notebook. *)
Definition in_session {A} (m : @M W E A) : Script A :=
  fun w => match m w with (o, w', t) => (o, w', map Session t) end.

Definition desk {A} (a : Action) (f : W -> Outcome A * W) : Script A :=
  fun w => match f w with (o, w') => (o, w', [Desk a (exn_of o)]) end.

Definition ask (hidden : bool) (prompt : string)
    (f : string -> W -> Outcome string * W) : Script string :=
  fun w => match f prompt w with
           | (o, w') => (o, w', [Prompt hidden prompt o])
           end.

End Notebook.

Arguments Action : clear implicits.
Arguments Step : clear implicits.
Arguments StartChrome {E}.
Arguments MaximizeWindow {E}.
Arguments Get {E} url.
Arguments ImplicitlyWait {E} secs.
Arguments CloseWindow {E}.
Arguments Prompt {E} hidden prompt answer.

Declare Scope script_scope.
Delimit Scope script_scope with script.
Notation "x <- m ;; k" := (and_then m (fun x => k))
  (at level 61, m at next level, right associativity) : script_scope.
Notation "m ;; k" := (and_then m (fun _ => k))
  (at level 61, right associativity) : script_scope.

Section Cells.

Context {W E : Type} {driver : WebDriver W E} {machine : Machine W E}.

Local Abbreviation Script := (@Script W E).
Local Open Scope script_scope.

(** [e.send_keys(keys)] *)
Definition send_keys (e : E) (keys : string) : Script unit :=
  desk (SendKeys e keys) (element_send_keys e keys).

(** [getpass.getpass(prompt)] and [input(prompt)] *)
Definition getpass (prompt : string) : Script string :=
  ask true prompt getpass_getpass.
Definition input (prompt : string) : Script string :=
  ask false prompt builtins_input.

(** Lines 141-148.  The driver object is the state [W] itself, so
    nothing is returned. *)
Definition init_driver : Script unit :=
  desk StartChrome webdriver_Chrome ;;
  desk MaximizeWindow driver_maximize_window ;;
  done tt.

(** Lines 166-169. *)
Definition navigate_to_linkedin : Script unit :=
  desk (Get linkedin_feed_url) (driver_get linkedin_feed_url) ;;
  in_session (sleep 1).

(** Lines 190-206. *)
Definition sign_in : Script unit :=
  sign_in_link <- in_session (driver_find_element XPATH sign_in_xpath) ;;
  in_session (click sign_in_link) ;;
  uname <- in_session (driver_find_element ID "username") ;;
  username <- getpass username_prompt ;;
  send_keys uname username ;;
  pword <- in_session (driver_find_element ID "password") ;;
  p <- getpass password_prompt ;;
  send_keys pword p ;;
  final_sign_in <-
    in_session (driver_find_element XPATH final_sign_in_xpath) ;;
  in_session (click final_sign_in) ;;
  desk (ImplicitlyWait 15) (driver_implicitly_wait 15).

(** Lines 227-240. *)
Definition perform_job_search : Script string :=
  search_box <- in_session (driver_find_element XPATH search_box_xpath) ;;
  job_search_domain <- input job_search_prompt ;;
  send_keys search_box job_search_domain ;;
  send_keys search_box Keys_ENTER ;;
  in_session (sleep 5) ;;
  jobs_button <- in_session (driver_find_element XPATH jobs_button_xpath) ;;
  in_session (click jobs_button) ;;
  in_session (sleep 5) ;;
  done job_search_domain.

(** Lines 375-377. *)
Definition close_browser : Script unit :=
  in_session (print msg_end_of_job_search) ;;
  desk CloseWindow driver_close.

(** Lines 416-423. *)
Definition main : Script unit :=
  init_driver ;;
  navigate_to_linkedin ;;
  sign_in ;;
  job_search_domain <- perform_job_search ;;
  in_session (scrape_and_export job_search_domain) ;;
  close_browser.

(** The cells of [main] that run before [scrape_jobs]. *)
Definition before_scraping : Script string :=
  init_driver ;;
  navigate_to_linkedin ;;
  sign_in ;;
  perform_job_search.

End Cells.

(** ** What is observed of a run of the notebook *)

Section Steps.

Context {W E : Type}.

Local Abbreviation Step := (Step E).

Definition final {A} (r : Outcome A * W * list Step) : Outcome A :=
  fst (fst r).
Definition steps {A} (r : Outcome A * W * list Step) : list Step := snd r.


(** [driver.close()] *)
Definition is_close (s : Step) : bool :=
  match s with
  | Desk CloseWindow _ => true
  | _ => false
  end.

Definition is_to_csv (s : Step) : bool :=
  match s with
  | Session ev => match ev_call ev with ToCsv _ _ => true | _ => false end
  | _ => false
  end.


(** [m] makes no step that satisfies [p]. *)
Definition avoids {A} (p : Step -> bool) (m : @Script W E A) : Prop :=
  forall w, Forall (fun s => p s = false) (steps (m w)).


End Steps.

(** ** A simulated desktop

    The simulated browser with the controls of the sign-in and search
    pages in front of it, and a user who types the given answers at the
    prompts. *)

Module Desktop.

Inductive Elem : Type :=
| SiteNode (n : Browser.Node)
| Control (locator : string).

Record State : Type := {
  browser : Browser.State;
  answers : list string;
  window_open : bool
}.

Definition with_browser (b : Browser.State) (s : State) : State :=
  {| browser := b; answers := answers s; window_open := window_open s |}.

Definition on_browser {A B : Type}
    (f : Browser.State -> Outcome A * Browser.State) (g : A -> B)
    (s : State) : Outcome B * State :=
  match f (browser s) with
  | (Ok a, b) => (Ok (g a), with_browser b s)
  | (Raised e, b) => (Raised e, with_browser b s)
  end.

(** The controls that [sign_in] and [perform_job_search] look up. *)
Definition is_control (by_ : By) (value : string) : bool :=
  match by_ with
  | XPATH =>
      String.eqb value sign_in_xpath
      || String.eqb value final_sign_in_xpath
      || String.eqb value search_box_xpath
      || String.eqb value jobs_button_xpath
  | ID => String.eqb value "username" || String.eqb value "password"
  | _ => false
  end.

(** The user's next answer; an empty line when none is left. *)
Definition answer (s : State) : Outcome string * State :=
  match answers s with
  | [] => (Ok "", s)
  | a :: rest =>
      (Ok a, {| browser := browser s; answers := rest;
                window_open := window_open s |})
  end.

Definition set_window (open_ : bool) (s : State) : State :=
  {| browser := browser s; answers := answers s; window_open := open_ |}.

#[global] Instance chrome : WebDriver State Elem := {
  find_element by_ value s :=
    if is_control by_ value then (Ok (Control value), s)
    else on_browser (find_element by_ value) SiteNode s;
  find_elements by_ value :=
    on_browser (find_elements by_ value) (map SiteNode);
  element_find_element e by_ value s :=
    match e with
    | SiteNode n => on_browser (element_find_element n by_ value) SiteNode s
    | Control _ => (Raised NoSuchElementException, s)
    end;
  element_text e s :=
    match e with
    | SiteNode n => on_browser (element_text n) (fun x => x) s
    | Control _ => (Ok "", s)
    end;
  element_get_attribute e name s :=
    match e with
    | SiteNode n => on_browser (element_get_attribute n name) (fun x => x) s
    | Control _ => (Ok None, s)
    end;
  element_click e s :=
    match e with
    | SiteNode n => on_browser (element_click n) (fun x => x) s
    | Control _ => (Ok tt, s)
    end;
  scroll_from_origin e dx dy s :=
    match e with
    | SiteNode n => on_browser (scroll_from_origin n dx dy) (fun x => x) s
    | Control _ => (Ok tt, s)
    end;
  time_sleep _ s := s
}.

#[global] Instance machine : Machine State Elem := {
  webdriver_Chrome s := (Ok tt, set_window true s);
  driver_maximize_window s := (Ok tt, s);
  driver_get _ s := (Ok tt, s);
  element_send_keys _ _ s := (Ok tt, s);
  driver_implicitly_wait _ s := (Ok tt, s);
  driver_close s := (Ok tt, set_window false s);
  getpass_getpass _ := answer;
  builtins_input _ := answer
}.

(** A user about to run the notebook on the site [b]. *)
Definition start (b : Browser.State) (typed : list string) : State :=
  {| browser := b; answers := typed; window_open := false |}.

End Desktop.

(** A user who signs in and then searches for [ML]. *)
Definition typed : list string := ["user"; "secret"; "ML"].

(** * Properties *)

(** ** Traces of straight-line code *)

Section Traces.

Context {W E : Type} {driver : WebDriver W E}.

Local Abbreviation M := (@M W E).
Local Abbreviation Event := (Event E).

Lemma clean_app (C : Event -> bool) x t1 t2 :
  clean C None t1 -> clean C x t2 -> clean C x (t1 ++ t2).
Proof.
  intros H1 H2. remember None as n eqn:Hn.
  induction H1; subst; simpl; try discriminate; auto.
  apply clean_step; auto.
Qed.

Lemma clean_Forall (C : Event -> bool) x t :
  clean C x t -> Forall (fun ev => C ev = true) t.
Proof. induction 1; auto. Qed.

Lemma clean_None_succeeded (C : Event -> bool) t :
  clean C None t -> Forall (fun ev => ev_exn ev = None) t.
Proof.
  intros H. remember None as n eqn:Hn.
  induction H; subst; try discriminate; auto.
Qed.

Lemma count_app (p : Event -> bool) t1 t2 :
  count p (t1 ++ t2) = count p t1 + count p t2.
Proof. unfold count. now rewrite filter_app, length_app. Qed.

Lemma count_cons (p : Event -> bool) ev t :
  count p (ev :: t) = (if p ev then 1 else 0) + count p t.
Proof. unfold count. simpl. now destruct (p ev). Qed.

Lemma count_none (p : Event -> bool) t :
  Forall (fun ev => p ev = false) t -> count p t = 0.
Proof.
  induction 1 as [|ev t Hev _ IH]; [reflexivity|].
  rewrite count_cons, Hev, IH. reflexivity.
Qed.

Lemma clean_count_none (C p : Event -> bool) x t :
  (forall ev, C ev = true -> p ev = false) -> clean C x t -> count p t = 0.
Proof.
  intros HC H. apply count_none.
  eapply Forall_impl; [|apply (clean_Forall H)]. auto.
Qed.

Lemma cleanly_ret {A} (C : Event -> bool) (a : A) :
  cleanly C (ret a : M A).
Proof. intros w. constructor. Qed.

Lemma cleanly_call {A} (C : Event -> bool) c (f : W -> Outcome A * W) :
  (forall x, C {| ev_call := c; ev_exn := x |} = true) ->
  cleanly C (call c f).
Proof.
  intros HC w. unfold call, outcome, trace.
  destruct (f w) as [[a|e] w']; simpl.
  - apply clean_step; auto. constructor.
  - apply clean_raise; auto.
Qed.

Lemma cleanly_bind {A B} (C : Event -> bool) (m : M A) (f : A -> M B) :
  cleanly C m -> (forall a, cleanly C (f a)) -> cleanly C (bind m f).
Proof.
  intros Hm Hf w. unfold bind, outcome, trace.
  specialize (Hm w). unfold outcome, trace in Hm.
  destruct (m w) as [[[a|e] w1] t1]; simpl in *; auto.
  specialize (Hf a w1). unfold outcome, trace in Hf.
  destruct (f a w1) as [[o w2] t2]; simpl in *.
  apply clean_app; auto.
Qed.

Lemma cleanly_for_each {X L} (C : Event -> bool) (body : X -> L -> M L) xs :
  (forall x l, cleanly C (body x l)) ->
  forall l, cleanly C (for_each xs body l).
Proof.
  intros Hb. induction xs as [|x xs IH]; intros l; simpl.
  - apply cleanly_ret.
  - apply cleanly_bind; auto.
Qed.

Lemma for_each_preserves {X L} (I : L -> Prop) (body : X -> L -> M L) xs :
  (forall x l w a, I l -> outcome (body x l w) = Ok a -> I a) ->
  forall l w a, I l -> outcome (for_each xs body l w) = Ok a -> I a.
Proof.
  intros Hb. induction xs as [|x xs IH]; intros l w a Hl; simpl.
  - unfold ret, outcome; simpl. intros [= <-]. exact Hl.
  - unfold bind, outcome. specialize (Hb x l w).
    unfold outcome in Hb.
    destruct (body x l w) as [[[l1|e] w1] t1]; simpl in *.
    + specialize (IH l1 w1 a (Hb l1 Hl eq_refl)). unfold outcome in IH.
      destruct (for_each xs body l1 w1) as [[o w2] t2]; simpl in *. exact IH.
    + discriminate.
Qed.

(** *** The blocks of one iteration that precede the pagination *)

Ltac cleanly_tac :=
  repeat first
    [ apply cleanly_ret
    | apply cleanly_call; intros; reflexivity
    | apply cleanly_for_each; intros
    | apply cleanly_bind; [|intros] ].

Lemma scroll_to_bottom_cleanly scroll_origin :
  cleanly outside_pagination (scroll_to_bottom scroll_origin).
Proof. unfold scroll_to_bottom, perform_scroll, sleep. cleanly_tac. Qed.

Lemma collect_job_titles_cleanly job_titles l :
  cleanly outside_pagination (collect_job_titles job_titles l).
Proof. unfold collect_job_titles, text. cleanly_tac. Qed.

Lemma collect_job_links_cleanly job_titles l :
  cleanly outside_pagination (collect_job_links job_titles l).
Proof.
  unfold collect_job_links, text, elem_find_element, get_attribute.
  cleanly_tac.
Qed.

Lemma collect_job_locations_cleanly l :
  cleanly outside_pagination (collect_job_locations l).
Proof.
  unfold collect_job_locations, driver_find_elements, text. cleanly_tac.
Qed.

Lemma collect_company_names_cleanly l :
  cleanly outside_pagination (collect_company_names l).
Proof.
  unfold collect_company_names, driver_find_elements, text. cleanly_tac.
Qed.

Lemma bind_Ok_inv {A B} (m : M A) (f : A -> M B) w b :
  outcome (bind m f w) = Ok b ->
  exists a, outcome (m w) = Ok a
            /\ outcome (f a (world (m w))) = Ok b.
Proof.
  unfold bind, outcome, world.
  destruct (m w) as [[[a|e] w1] t1]; simpl; [|discriminate].
  destruct (f a w1) as [[o w2] t2] eqn:Hf; simpl.
  intros H. exists a. split; [reflexivity | now rewrite Hf].
Qed.

Ltac preserves_tac :=
  let H := fresh in
  intros ? ? ? ? ? H;
  repeat (apply bind_Ok_inv in H; destruct H as (? & _ & H));
  unfold ret, outcome in H; simpl in H; injection H as <-; simpl; assumption.

Lemma collect_job_titles_page_number job_titles l w l' :
  outcome (collect_job_titles job_titles l w) = Ok l' ->
  page_number l' = page_number l.
Proof.
  apply (for_each_preserves (fun a => page_number a = page_number l));
    [preserves_tac | reflexivity].
Qed.

Lemma collect_job_links_page_number job_titles l w l' :
  outcome (collect_job_links job_titles l w) = Ok l' ->
  page_number l' = page_number l.
Proof.
  apply (for_each_preserves (fun a => page_number a = page_number l));
    [preserves_tac | reflexivity].
Qed.

Lemma collect_job_locations_page_number l w l' :
  outcome (collect_job_locations l w) = Ok l' ->
  page_number l' = page_number l.
Proof.
  unfold collect_job_locations. intros H.
  apply bind_Ok_inv in H. destruct H as (xs & _ & H). revert H.
  apply (for_each_preserves (fun a => page_number a = page_number l));
    [preserves_tac | reflexivity].
Qed.

Lemma collect_company_names_page_number l w l' :
  outcome (collect_company_names l w) = Ok l' ->
  page_number l' = page_number l.
Proof.
  unfold collect_company_names. intros H.
  apply bind_Ok_inv in H. destruct H as (xs & _ & H). revert H.
  apply (for_each_preserves (fun a => page_number a = page_number l));
    [preserves_tac | reflexivity].
Qed.

(** *** The accumulators only grow at their end *)

Lemma extends_refl l : extends l l.
Proof. repeat split; exists []; now rewrite app_nil_r. Qed.

Lemma extends_trans l1 l2 l3 : extends l1 l2 -> extends l2 l3 -> extends l1 l3.
Proof.
  intros ([a1 Ha] & [b1 Hb] & [c1 Hc] & [d1 Hd])
         ([a2 Ha2] & [b2 Hb2] & [c2 Hc2] & [d2 Hd2]).
  repeat split;
    [exists (a1 ++ a2) | exists (b1 ++ b2) | exists (c1 ++ c2)
    | exists (d1 ++ d2)]; rewrite app_assoc; congruence.
Qed.

Lemma extends_step l x :
  extends l (append_job_title l x)
  /\ extends l (append_job_location l x)
  /\ extends l (append_company_name l x).
Proof.
  repeat split; simpl;
    first [ exists [x]; reflexivity | exists []; now rewrite app_nil_r ].
Qed.

Lemma extends_incr l : extends l (incr_page_number l).
Proof. repeat split; simpl; exists []; now rewrite app_nil_r. Qed.

Lemma extends_link l x : extends l (append_job_link l x).
Proof.
  repeat split; simpl;
    first [ exists [x]; reflexivity | exists []; now rewrite app_nil_r ].
Qed.

Ltac extends_tac :=
  let H := fresh in
  let Hl := fresh in
  intros ? ? ? ? Hl H;
  repeat (apply bind_Ok_inv in H; destruct H as (? & _ & H));
  unfold ret, outcome in H; simpl in H; injection H as <-;
  apply (extends_trans Hl);
  first [ apply extends_link | apply extends_step ].

Lemma collect_job_titles_extends job_titles l w l' :
  outcome (collect_job_titles job_titles l w) = Ok l' -> extends l l'.
Proof.
  apply (for_each_preserves (fun a => extends l a));
    [extends_tac | apply extends_refl].
Qed.

Lemma collect_job_links_extends job_titles l w l' :
  outcome (collect_job_links job_titles l w) = Ok l' -> extends l l'.
Proof.
  apply (for_each_preserves (fun a => extends l a));
    [extends_tac | apply extends_refl].
Qed.

Lemma collect_job_locations_extends l w l' :
  outcome (collect_job_locations l w) = Ok l' -> extends l l'.
Proof.
  unfold collect_job_locations. intros H.
  apply bind_Ok_inv in H. destruct H as (xs & _ & H). revert H.
  apply (for_each_preserves (fun a => extends l a));
    [extends_tac | apply extends_refl].
Qed.

Lemma collect_company_names_extends l w l' :
  outcome (collect_company_names l w) = Ok l' -> extends l l'.
Proof.
  unfold collect_company_names. intros H.
  apply bind_Ok_inv in H. destruct H as (xs & _ & H). revert H.
  apply (for_each_preserves (fun a => extends l a));
    [extends_tac | apply extends_refl].
Qed.

Lemma next_page_extends l w c l' :
  outcome (next_page l w) = Ok (c, l') -> extends l l'.
Proof.
  unfold next_page, try_except_NoSuchElement, bind, driver_find_element,
    elem_find_element, click, sleep, call, ret, outcome.
  destruct (find_element _ _ w) as [[li|[]] w1]; simpl;
    [destruct (element_find_element _ _ _ w1) as [[btn|[]] w2]; simpl;
       [destruct (element_click _ w2) as [[u|[]] w3]; simpl|..]|..];
    intros [= <- <-]; first [apply extends_refl | apply extends_incr].
Qed.

(** Whatever the browser does, an iteration leaves what the earlier
    iterations gathered where it was and adds its own at the end. *)
Lemma scrape_page_appends i l w c l' :
  outcome (scrape_page i l w) = Ok (c, l') -> extends l l'.
Proof.
  unfold scrape_page. intros H.
  apply bind_Ok_inv in H. destruct H as (? & _ & H).
  apply bind_Ok_inv in H. destruct H as (footer & _ & H).
  apply bind_Ok_inv in H. destruct H as (? & _ & H).
  apply bind_Ok_inv in H. destruct H as (job_titles & _ & H).
  apply bind_Ok_inv in H. destruct H as (l1 & H1 & H).
  apply bind_Ok_inv in H. destruct H as (l2 & H2 & H).
  apply bind_Ok_inv in H. destruct H as (l3 & H3 & H).
  apply bind_Ok_inv in H. destruct H as (l4 & H4 & H).
  apply collect_job_titles_extends in H1.
  apply collect_job_links_extends in H2.
  apply collect_job_locations_extends in H3.
  apply collect_company_names_extends in H4.
  apply next_page_extends in H.
  eauto using extends_trans.
Qed.

(** So what iteration N gathered stands before what iteration N+1
    gathers, in every session. *)
Lemma scrape_pages_loop_appends xs : forall l w l',
  outcome (for_each_break xs scrape_page l w) = Ok l' -> extends l l'.
Proof.
  induction xs as [|i xs IH]; intros l w l'; simpl.
  - unfold ret, outcome; simpl. intros [= <-]. apply extends_refl.
  - intros H. apply bind_Ok_inv in H. destruct H as ([c l1] & H1 & H).
    apply scrape_page_appends in H1. destruct c.
    + apply IH in H. eauto using extends_trans.
    + unfold ret, outcome in H; simpl in H. injection H as <-. exact H1.
Qed.

(** *** One iteration *)

Lemma outside_not_in (ev : Event) :
  outside_pagination ev = true -> in_pagination ev = false.
Proof. unfold outside_pagination. now destruct (in_pagination ev). Qed.

Lemma is_click_ok_in (ev : Event) :
  is_click_ok ev = true -> in_pagination ev = true.
Proof.
  unfold is_click_ok, in_pagination.
  destruct (ev_call ev); try discriminate. reflexivity.
Qed.

Lemma outside_not_click (ev : Event) :
  outside_pagination ev = true -> is_click_ok ev = false.
Proof.
  intros H. apply outside_not_in in H.
  destruct (is_click_ok ev) eqn:Hc; [|reflexivity].
  apply is_click_ok_in in Hc. congruence.
Qed.

Lemma clean_halts e (t : list Event) :
  clean outside_pagination (Some e) t -> halts (Some e) t.
Proof.
  intros H. remember (Some e) as x eqn:Hx.
  induction H; subst; try discriminate.
  - apply halts_step; auto.
  - injection Hx as ->. apply halts_raise; auto.
    apply outside_not_in in H. congruence.
Qed.

Lemma halts_app x (t1 t2 : list Event) :
  Forall (fun ev => ev_exn ev = None) t1 -> halts x t2 -> halts x (t1 ++ t2).
Proof.
  induction 1; simpl; auto. intros. apply halts_step; auto.
Qed.

Lemma clean_lookups_follow n x (t : list Event) :
  clean outside_pagination x t -> lookups_follow n t.
Proof.
  intros H. induction H; simpl; auto.
  - rewrite (outside_not_click _ H). split; auto.
    apply outside_not_in in H. unfold in_pagination in H.
    destruct (ev_call ev); auto. destruct by_; auto; discriminate.
  - split; auto.
    apply outside_not_in in H. unfold in_pagination in H.
    destruct (ev_call ev); auto. destruct by_; auto; discriminate.
Qed.

Lemma clean_no_click x (t : list Event) :
  clean outside_pagination x t -> count is_click_ok t = 0.
Proof. apply clean_count_none. apply outside_not_click. Qed.

Lemma lookups_follow_app (t1 t2 : list Event) : forall n,
  lookups_follow n t1 ->
  lookups_follow (n + count is_click_ok t1) t2 ->
  lookups_follow n (t1 ++ t2).
Proof.
  induction t1 as [|ev t1 IH]; intros n; simpl.
  - intros _. unfold count; simpl. now rewrite Nat.add_0_r.
  - intros [H1 H2] H3. split; [exact H1|].
    apply IH; [exact H2|].
    rewrite count_cons in H3.
    destruct (is_click_ok ev); simpl in *.
    + now rewrite <- Nat.add_assoc.
    + exact H3.
Qed.

Lemma lookups_follow_at (pre post : list Event) ev v : forall n,
  lookups_follow n (pre ++ ev :: post) ->
  ev_call ev = FindElement CSS_SELECTOR v ->
  v = page_btn_selector (n + count is_click_ok pre).
Proof.
  induction pre as [|ev' pre IH]; intros n; simpl.
  - intros [H _] Hc. rewrite Hc in H. unfold count; simpl.
    now rewrite Nat.add_0_r.
  - intros [_ H] Hc. rewrite count_cons.
    specialize (IH _ H Hc).
    destruct (is_click_ok ev'); simpl in *.
    + now rewrite <- Nat.add_assoc in IH.
    + exact IH.
Qed.

Ltac halts_tac :=
  repeat first
    [ apply halts_step; [reflexivity|]
    | apply halts_break; reflexivity
    | apply halts_raise; [reflexivity | intros _; discriminate] ].

Lemma next_page_post l w :
  iteration_post (page_number l) (outcome (next_page l w))
                 (trace (next_page l w)).
Proof.
  unfold next_page, try_except_NoSuchElement, bind, driver_find_element,
    elem_find_element, click, sleep, call, ret, outcome, trace.
  destruct (find_element _ _ w) as [[li|[]] w1]; simpl;
    [destruct (element_find_element _ _ _ w1) as [[btn|[]] w2]; simpl;
       [destruct (element_click _ w2) as [[u|[]] w3]; simpl|..]|..].
  all: split; [simpl; repeat split; reflexivity|].
  all: try (split; [repeat constructor | reflexivity]).
  all: halts_tac.
Qed.

Lemma iteration_post_prepend n o (t1 t2 : list Event) :
  clean outside_pagination None t1 ->
  iteration_post n o t2 -> iteration_post n o (t1 ++ t2).
Proof.
  intros H1 [Hf H2]. split.
  - apply lookups_follow_app.
    + eapply clean_lookups_follow; eauto.
    + now rewrite (clean_no_click H1), Nat.add_0_r.
  - pose proof (clean_None_succeeded H1) as Hs.
    destruct o as [[[|] l']|e].
    + destruct H2 as [H2 H3]. split.
      * apply Forall_app; auto.
      * now rewrite count_app, (clean_no_click H1).
    + now apply halts_app.
    + now apply halts_app.
Qed.

Lemma iteration_post_raise n e (t : list Event) :
  clean outside_pagination (Some e) t -> iteration_post n (Raised e) t.
Proof.
  intros H. split.
  - eapply clean_lookups_follow; eauto.
  - now apply clean_halts.
Qed.

Lemma iteration_bind {A} n (m : M A) (f : A -> M (Ctl * Locals))
    (I : A -> Prop) :
  cleanly outside_pagination m ->
  (forall w a, outcome (m w) = Ok a -> I a) ->
  (forall a, I a ->
     forall w, iteration_post n (outcome (f a w)) (trace (f a w))) ->
  forall w, iteration_post n (outcome (bind m f w)) (trace (bind m f w)).
Proof.
  intros Hm HI Hf w. specialize (Hm w). specialize (HI w).
  unfold bind, outcome, trace in *.
  destruct (m w) as [[[a|e] w1] t1]; simpl in *.
  - specialize (Hf a (HI a eq_refl) w1).
    destruct (f a w1) as [[o w2] t2]; simpl in *.
    now apply iteration_post_prepend.
  - now apply iteration_post_raise.
Qed.

Lemma scrape_page_post i l w :
  iteration_post (page_number l) (outcome (scrape_page i l w))
                 (trace (scrape_page i l w)).
Proof.
  revert w. unfold scrape_page.
  apply iteration_bind with (I := fun _ => True);
    [apply cleanly_call; reflexivity | auto | intros _ _].
  apply iteration_bind with (I := fun _ => True);
    [apply cleanly_call; reflexivity | auto | intros footer _].
  apply iteration_bind with (I := fun _ => True);
    [apply scroll_to_bottom_cleanly | auto | intros _ _].
  apply iteration_bind with (I := fun _ => True);
    [apply cleanly_call; reflexivity | auto | intros job_titles _].
  apply iteration_bind with (I := fun a => page_number a = page_number l);
    [apply collect_job_titles_cleanly
    |intros w a; apply collect_job_titles_page_number | intros l1 H1].
  apply iteration_bind with (I := fun a => page_number a = page_number l);
    [apply collect_job_links_cleanly
    |intros w a H; rewrite <- H1; revert H;
     apply collect_job_links_page_number | intros l2 H2].
  apply iteration_bind with (I := fun a => page_number a = page_number l);
    [apply collect_job_locations_cleanly
    |intros w a H; rewrite <- H2; revert H;
     apply collect_job_locations_page_number | intros l3 H3].
  apply iteration_bind with (I := fun a => page_number a = page_number l);
    [apply collect_company_names_cleanly
    |intros w a H; rewrite <- H3; revert H;
     apply collect_company_names_page_number | intros l4 H4].
  intros w. rewrite <- H4. apply next_page_post.
Qed.

(** *** The loop and the session *)

Lemma scrape_pages_loop_post xs : forall l w,
  loop_post (page_number l)
    (exn_of (outcome (for_each_break xs scrape_page l w)))
    (trace (for_each_break xs scrape_page l w)).
Proof.
  induction xs as [|i xs IH]; intros l w; simpl.
  - split; simpl; auto.
  - pose proof (scrape_page_post i l w) as [Hf Hb].
    unfold bind, outcome, trace in *.
    destruct (scrape_page i l w) as [[[[[|] l']|e] w1] t1]; simpl in *.
    + destruct Hb as [Hs Hn]. specialize (IH l' w1).
      destruct (for_each_break xs scrape_page l' w1) as [[o w2] t2].
      simpl in *. destruct IH as [Hf2 IH]. split.
      * apply lookups_follow_app; auto. now rewrite <- Hn.
      * destruct IH as [[Hs2 Hx]|Hh].
        -- left. split; auto. apply Forall_app; auto.
        -- right. now apply halts_app.
    + rewrite app_nil_r. split; auto.
    + split; auto.
Qed.

Lemma scrape_jobs_shape w :
  session_shape (outcome (scrape_jobs w)) (trace (scrape_jobs w)).
Proof.
  unfold scrape_jobs, try_except_NoSuchElement, bind, driver_find_element,
    print, call, ret, outcome, trace.
  destruct (find_element XPATH no_matching_jobs_xpath w) as [[e0|e] w1];
    cbn [fst snd exn_of app].
  - now apply session_no_results.
  - destruct e; cbn [fst snd exn_of app];
      try (apply session_crash; [reflexivity | reflexivity | discriminate]).
    unfold scrape_pages, bind, print, call, ret.
    pose proof (scrape_pages_loop_post (range 1 5) initial_locals w1) as H.
    unfold outcome, trace in H.
    destruct (for_each_break (range 1 5) scrape_page initial_locals w1)
      as [[[l|e] w2] t2]; cbn [fst snd exn_of app] in *.
    + rewrite app_nil_r.
      apply session_scan; auto. intros r [= <-]. eauto.
    + apply session_scan; auto. intros r [=].
Qed.

(** *** Counting calls *)

Lemma bounded_ret {A} (p : Event -> bool) (a : A) :
  bounded p 0 (ret a : M A).
Proof. intros w. apply Nat.le_refl. Qed.

Lemma bounded_call_none {A} (p : Event -> bool) c (f : W -> Outcome A * W) :
  (forall x, p {| ev_call := c; ev_exn := x |} = false) ->
  bounded p 0 (call c f).
Proof.
  intros Hp w. unfold call, trace. destruct (f w) as [o w'].
  unfold count; simpl. now rewrite Hp.
Qed.

Lemma bounded_call_one {A} (p : Event -> bool) c (f : W -> Outcome A * W) :
  bounded p 1 (call c f).
Proof.
  intros w. unfold call, trace. destruct (f w) as [o w'].
  unfold count; simpl. destruct (p _); simpl; lia.
Qed.

Lemma bounded_bind {A B} (p : Event -> bool) n1 n2 (m : M A) (f : A -> M B) :
  bounded p n1 m -> (forall a, bounded p n2 (f a)) ->
  bounded p (n1 + n2) (bind m f).
Proof.
  intros Hm Hf w. specialize (Hm w). unfold bind, trace in *.
  destruct (m w) as [[[a|e] w1] t1]; simpl in *; [|lia].
  specialize (Hf a w1). unfold trace in Hf.
  destruct (f a w1) as [[o w2] t2]; simpl in *.
  rewrite count_app. lia.
Qed.

Lemma bounded_try {A} (p : Event -> bool) n1 n2 (m h : M A) :
  bounded p n1 m -> bounded p n2 h ->
  bounded p (n1 + n2) (try_except_NoSuchElement m h).
Proof.
  intros Hm Hh w. specialize (Hm w).
  unfold try_except_NoSuchElement, trace in *.
  destruct (m w) as [[[a|[]] w1] t1]; simpl in *; try lia.
  specialize (Hh w1). unfold trace in Hh.
  destruct (h w1) as [[o w2] t2]; simpl in *.
  rewrite count_app. lia.
Qed.

Lemma bounded_for_each {X L} (p : Event -> bool) (body : X -> L -> M L) xs :
  (forall x l, bounded p 0 (body x l)) ->
  forall l, bounded p 0 (for_each xs body l).
Proof.
  intros Hb. induction xs as [|x xs IH]; intros l; simpl.
  - apply bounded_ret.
  - apply (@bounded_bind _ _ p 0 0); auto.
Qed.

Lemma bounded_for_each_break {X L} (p : Event -> bool) n
    (body : X -> L -> M (Ctl * L)) xs :
  (forall x l, bounded p n (body x l)) ->
  forall l, bounded p (length xs * n) (for_each_break xs body l).
Proof.
  intros Hb. induction xs as [|x xs IH]; intros l; simpl.
  - apply bounded_ret.
  - apply bounded_bind; auto.
    intros [[|] l'] w; [apply IH|].
    unfold ret, trace, count; simpl. lia.
Qed.

Ltac bounded_tac :=
  repeat first
    [ apply bounded_ret
    | apply bounded_call_none; intros; reflexivity
    | apply bounded_for_each; intros
    | apply (@bounded_bind _ _ _ 0 0); [|intros]
    | apply (@bounded_try _ _ 0 0) ].

Lemma scrape_page_iteration_starts i l :
  bounded is_iteration_start 1 (scrape_page i l).
Proof.
  unfold scrape_page.
  apply (@bounded_bind _ _ _ 1 0); [apply bounded_call_one|intros _].
  unfold driver_find_element, scroll_to_bottom, perform_scroll, sleep,
    driver_find_elements, collect_job_titles, collect_job_links,
    collect_job_locations, collect_company_names, next_page, text,
    elem_find_element, get_attribute, click.
  bounded_tac.
Qed.

Lemma scrape_page_title_queries i l :
  bounded is_title_query 1 (scrape_page i l).
Proof.
  unfold scrape_page.
  apply (@bounded_bind _ _ _ 0 1);
    [unfold print; bounded_tac|intros _].
  apply (@bounded_bind _ _ _ 0 1);
    [unfold driver_find_element; bounded_tac|intros footer].
  apply (@bounded_bind _ _ _ 0 1);
    [unfold scroll_to_bottom, perform_scroll, sleep; bounded_tac|intros _].
  apply (@bounded_bind _ _ _ 1 0); [apply bounded_call_one|intros job_titles].
  unfold driver_find_element, 
    driver_find_elements, collect_job_titles, collect_job_links,
    collect_job_locations, collect_company_names, next_page, text,
    elem_find_element, get_attribute, click, sleep.
  bounded_tac.
Qed.

Lemma scrape_page_li_lookups i l :
  bounded is_li_lookup 1 (scrape_page i l).
Proof.
  unfold scrape_page, scroll_to_bottom, collect_job_titles,
    collect_job_links, collect_job_locations, collect_company_names.
  unfold print, driver_find_element, driver_find_elements, perform_scroll,
    sleep, text, elem_find_element, get_attribute.
  repeat (apply (@bounded_bind _ _ _ 0 1); [bounded_tac|intros]).
  unfold next_page, driver_find_element, elem_find_element, click, sleep.
  apply (@bounded_try _ _ 1 0); [|apply bounded_ret].
  apply (@bounded_bind _ _ _ 1 0); [apply bounded_call_one|intros].
  bounded_tac.
Qed.

Lemma scrape_jobs_bounded (p : Event -> bool) :
  (forall x, p {| ev_call := FindElement XPATH no_matching_jobs_xpath;
                  ev_exn := x |} = false) ->
  (forall x, p {| ev_call := Print msg_no_matching_jobs;
                  ev_exn := x |} = false) ->
  (forall x, p {| ev_call := Print msg_search_begins;
                  ev_exn := x |} = false) ->
  (forall i l, bounded p 1 (scrape_page i l)) ->
  bounded p 4 (scrape_jobs : M _).
Proof.
  intros H1 H2 H3 Hb. unfold scrape_jobs, scrape_pages.
  apply (@bounded_try _ _ 0 4).
  - unfold driver_find_element, print.
    repeat first [ apply bounded_ret | apply bounded_call_none; assumption
                 | apply (@bounded_bind _ _ _ 0 0); [|intros] ].
  - apply (@bounded_bind _ _ _ 0 4);
      [apply bounded_call_none; assumption|intros _].
    apply (@bounded_bind _ _ _ 4 0); [|intros; apply bounded_ret].
    apply (@bounded_for_each_break _ _ p 1 scrape_page (range 1 5)). exact Hb.
Qed.

Lemma halts_failed_call x (pre post : list Event) ev e :
  halts x (pre ++ ev :: post) ->
  ev_exn ev = Some e ->
  post = []
  /\ (x = Some e /\ (in_pagination ev = true -> e <> NoSuchElementException)
      \/ x = None /\ e = NoSuchElementException /\ in_pagination ev = true).
Proof.
  revert x. induction pre as [|a pre IH]; intros x H He; simpl in H.
  - inversion H as [ev' t' x' H0 Ht | ev' e' H0 Hi | ev' H0 Hi]; subst.
    + congruence.
    + assert (e' = e) as -> by congruence. auto.
    + assert (e = NoSuchElementException) as -> by congruence. auto.
  - inversion H; subst.
    + eauto.
    + destruct pre; discriminate.
    + destruct pre; discriminate.
Qed.

Lemma succeeded_no_failed_call (pre post : list Event) ev e :
  Forall (fun ev => ev_exn ev = None) (pre ++ ev :: post) ->
  ev_exn ev = Some e -> False.
Proof.
  intros H He. apply Forall_app in H. destruct H as [_ H].
  inversion H; subst. congruence.
Qed.

Lemma cons_eq_app {A} (a : A) l pre x post :
  a :: l = pre ++ x :: post ->
  pre = [] /\ a = x /\ l = post
  \/ exists pre', pre = a :: pre' /\ l = pre' ++ x :: post.
Proof.
  destruct pre as [|b pre]; simpl; intros [= -> ->]; eauto.
Qed.

Lemma nil_eq_app {A} (pre : list A) x post : [] = pre ++ x :: post -> False.
Proof. destruct pre; discriminate. Qed.

Ltac split_trace H :=
  repeat match type of H with
    | _ :: _ = _ ++ _ :: _ =>
        apply cons_eq_app in H;
        destruct H as [(-> & <- & <-) | (? & -> & H)]
    | [] = _ ++ _ :: _ => apply nil_eq_app in H; contradiction
    end.

(** Where a call of a session can fail: at the sentinel lookup, with
    [NoSuchElementException] (then the loop runs); or as the last call
    of the session. *)
Lemma session_failed_call w (pre post : list Event) ev e :
  trace (scrape_jobs w) = pre ++ ev :: post ->
  ev_exn ev = Some e ->
  (pre = [] /\ e = NoSuchElementException
   /\ ev_call ev = FindElement XPATH no_matching_jobs_xpath)
  \/ (post = []
      /\ (outcome (scrape_jobs w) = Raised e
          /\ (in_pagination ev = true -> e <> NoSuchElementException)
          \/ e = NoSuchElementException /\ in_pagination ev = true
             /\ exists info, outcome (scrape_jobs w) = Ok (Some info))).
Proof.
  intros Ht He. pose proof (scrape_jobs_shape w) as H.
  rewrite Ht in H. inversion H as [ev0 Hc H0 Ho Hl | ev0 e0 Hc H0 Hn Ho Hl
                                  | ev0 o t Hc H0 Hp Hr Ho Hl].
  - split_trace Hl; simpl in *; congruence.
  - split_trace Hl. right. split; auto. left.
    assert (e0 = e) as -> by congruence. split; auto.
  - split_trace Hl; simpl in *; try congruence.
    + left. split; auto. split; auto. congruence.
    + subst t. right. destruct Hp as [_ [[Hs _]|Hh]].
      * exfalso. eapply succeeded_no_failed_call; eauto.
      * eapply halts_failed_call in Hh; [|exact He].
        destruct Hh as [-> [[Hx Hi]|(Hx & -> & Hi)]]; split; auto.
        -- left. split; auto.
           destruct (outcome (scrape_jobs w)) as [r|e1]; simpl in Hx;
             congruence.
        -- right. split; auto. split; auto.
           destruct (outcome (scrape_jobs w)) as [r|e1]; simpl in Hx;
             [|discriminate].
           destruct (Hr r eq_refl) as [info ->]. eauto.
Qed.

(** Every lookup of a page [li] is for page 2 plus the number of
    successful clicks made before it. *)
Lemma session_page_lookup w (pre post : list Event) ev v :
  trace (scrape_jobs w) = pre ++ ev :: post ->
  ev_call ev = FindElement CSS_SELECTOR v ->
  v = page_btn_selector (2 + count is_click_ok pre).
Proof.
  intros Ht Hv. pose proof (scrape_jobs_shape w) as H.
  rewrite Ht in H. inversion H as [ev0 Hc H0 Ho Hl | ev0 e0 Hc H0 Hn Ho Hl
                                  | ev0 o t Hc H0 Hp Hr Ho Hl].
  - split_trace Hl; simpl in *; congruence.
  - split_trace Hl. congruence.
  - split_trace Hl; simpl in *; try congruence.
    subst t. destruct Hp as [Hf _].
    eapply lookups_follow_at in Hf; [|exact Hv]. rewrite Hf.
    rewrite !count_cons. unfold is_click_ok at 1 2. rewrite Hc. reflexivity.
Qed.

End Traces.

(** ** The export *)

Section CsvExport.

Context {W E : Type} {driver : WebDriver W E}.

(** Lists of unequal length make no frame: [export_to_csv] creates the
    folder and raises [ValueError] before anything is written. *)
Lemma export_to_csv_mismatch (job_search_domain : string)
    (titles locations companies : list string)
    (links : list (option string)) (w : W) :
  length titles <> length locations
  \/ length titles <> length companies
  \/ length titles <> length links ->
  export_to_csv job_search_domain titles locations companies links w
  = (Raised ValueError, w, [returned (MakeDirs "Jobs/" : Call E)]).
Proof.
  intros H. unfold export_to_csv, bind, makedirs, call, eval, pd_DataFrame.
  cbn [fst snd exn_of app].
  destruct (Nat.eqb_spec (length titles) (length locations));
    destruct (Nat.eqb_spec (length titles) (length companies));
    destruct (Nat.eqb_spec (length titles) (length links));
    cbn; try reflexivity.
  exfalso. destruct H as [H|[H|H]]; contradiction.
Qed.

End CsvExport.

(** ** Sessions of the simulated browser *)

Import Browser.

Lemma str_inj n m : str n = str m -> n = m.
Proof.
  unfold str. intros H.
  apply (f_equal DecimalString.NilEmpty.uint_of_string) in H.
  rewrite !DecimalString.NilEmpty.usu in H. injection H as H.
  apply (f_equal Nat.of_uint) in H.
  now rewrite !DecimalNat.Unsigned.of_to in H.
Qed.

Lemma append_inj_l (p s1 s2 : string) : (p ++ s1 = p ++ s2 -> s1 = s2)%string.
Proof. induction p; simpl; intros H; [exact H|]. injection H as H. auto. Qed.

Lemma append_inj_r (s1 : string) : forall s2 z : string,
  String.length s1 = String.length s2 ->
  (s1 ++ z = s2 ++ z)%string -> s1 = s2.
Proof.
  induction s1 as [|a s1 IH]; intros [|b s2] z Hl H; simpl in *;
    try discriminate; auto.
  injection H as -> H. f_equal. eapply IH; eauto.
Qed.

Lemma append_length (s1 s2 : string) :
  String.length (s1 ++ s2) = String.length s1 + String.length s2.
Proof. induction s1; simpl; auto. Qed.

Lemma page_btn_selector_inj n m :
  page_btn_selector n = page_btn_selector m -> n = m.
Proof.
  unfold page_btn_selector. intros H.
  apply append_inj_l in H. apply append_inj_l in H.
  apply str_inj. eapply append_inj_r; [|exact H].
  apply (f_equal String.length) in H.
  rewrite !append_length in H. lia.
Qed.

Lemma find_page_btn n : forall len start,
  find (fun k => String.eqb (page_btn_selector n) (page_btn_selector k))
       (seq start len)
  = if Nat.leb start n && Nat.ltb n (start + len) then Some n else None.
Proof.
  induction len as [|len IH]; intros start; cbn [seq find].
  - destruct (Nat.leb_spec start n), (Nat.ltb_spec n (start + 0)); simpl;
      auto; lia.
  - destruct (String.eqb_spec (page_btn_selector n) (page_btn_selector start))
      as [Heq|Hne].
    + apply page_btn_selector_inj in Heq. subst start.
      rewrite Nat.leb_refl.
      destruct (Nat.ltb_spec n (n + S len)); simpl; auto; lia.
    + rewrite IH.
      assert (n <> start) by congruence.
      destruct (Nat.leb_spec (S start) n), (Nat.leb_spec start n),
        (Nat.ltb_spec n (S start + len)), (Nat.ltb_spec n (start + S len));
        simpl; auto; lia.
Qed.

Lemma browser_collect_job_titles pages c xs : forall ts ks ls cs n,
  exists t,
    collect_job_titles (map TitleNode xs) (locals ts ks ls cs n)
                       (at_page pages c)
    = (Ok (locals (ts ++ map listing_title xs) ks ls cs n),
       at_page pages c, t).
Proof.
  unfold collect_job_titles.
  induction xs as [|x xs IH]; intros ts ks ls cs n; cbn [map for_each].
  - exists []. now rewrite app_nil_r.
  - destruct (IH (ts ++ [listing_title x]) ks ls cs n) as [t Ht].
    eexists. unfold bind at 1. cbn.
    change (append_job_title (locals ts ks ls cs n) (listing_title x))
      with (locals (ts ++ [listing_title x]) ks ls cs n).
    rewrite Ht, <- app_assoc. reflexivity.
Qed.

Lemma browser_collect_job_links pages c xs :
  forallb resolves xs = true ->
  forall ts ks ls cs n,
  exists t,
    collect_job_links (map TitleNode xs) (locals ts ks ls cs n)
                      (at_page pages c)
    = (Ok (locals ts (ks ++ page_links
                              {| listings := xs; captions := [];
                                 descriptions := [] |}) ls cs n),
       at_page pages c, t).
Proof.
  unfold collect_job_links, page_links. cbn [listings].
  induction xs as [|x xs IH]; intros Hr ts ks ls cs n; cbn [map for_each].
  - exists []. now rewrite app_nil_r.
  - cbn [forallb] in Hr. apply andb_prop in Hr. destruct Hr as [Hx Hr].
    unfold resolves in Hx.
    destruct (listing_anchor x) as [a|] eqn:Ha; [|discriminate].
    destruct (IH Hr ts (ks ++ [href a]) ls cs n) as [t Ht].
    eexists. unfold bind at 1. cbn. rewrite Ha, Hx. cbn.
    change (append_job_link (locals ts ks ls cs n) (href a))
      with (locals ts (ks ++ [href a]) ls cs n).
    rewrite Ht, <- app_assoc. reflexivity.
Qed.

Lemma browser_collect_job_locations pages c : forall ts ks ls cs n,
  exists t,
    collect_job_locations (locals ts ks ls cs n) (at_page pages c)
    = (Ok (locals ts ks (ls ++ captions (nth c pages empty_page)) cs n),
       at_page pages c, t).
Proof.
  intros ts ks ls cs n. unfold collect_job_locations.
  unfold bind at 1. cbn.
  generalize (captions (nth c pages empty_page)) as xs.
  intros xs.
  enough (exists t,
    for_each (map TextNode xs)
      (fun job_location l =>
         bind (text job_location)
              (fun t => ret (append_job_location l t)))
      (locals ts ks ls cs n) (at_page pages c)
    = (Ok (locals ts ks (ls ++ xs) cs n), at_page pages c, t))
    as [t Ht].
  { cbn in Ht. rewrite Ht. eauto. }
  revert ls. induction xs as [|x xs IH]; intros ls; cbn [map for_each].
  - exists []. now rewrite app_nil_r.
  - destruct (IH (ls ++ [x])) as [t Ht].
    eexists. unfold bind at 1. cbn.
    change (append_job_location (locals ts ks ls cs n) x)
      with (locals ts ks (ls ++ [x]) cs n).
    cbn in Ht. rewrite Ht, <- app_assoc. reflexivity.
Qed.

Lemma browser_collect_company_names pages c : forall ts ks ls cs n,
  exists t,
    collect_company_names (locals ts ks ls cs n) (at_page pages c)
    = (Ok (locals ts ks ls (cs ++ descriptions (nth c pages empty_page)) n),
       at_page pages c, t).
Proof.
  intros ts ks ls cs n. unfold collect_company_names.
  unfold bind at 1. cbn.
  generalize (descriptions (nth c pages empty_page)) as xs.
  intros xs.
  enough (exists t,
    for_each (map TextNode xs)
      (fun company_name l =>
         bind (text company_name)
              (fun t => ret (append_company_name l t)))
      (locals ts ks ls cs n) (at_page pages c)
    = (Ok (locals ts ks ls (cs ++ xs) n), at_page pages c, t))
    as [t Ht].
  { cbn in Ht. rewrite Ht. eauto. }
  revert cs. induction xs as [|x xs IH]; intros cs; cbn [map for_each].
  - exists []. now rewrite app_nil_r.
  - destruct (IH (cs ++ [x])) as [t Ht].
    eexists. unfold bind at 1. cbn.
    change (append_company_name (locals ts ks ls cs n) x)
      with (locals ts ks ls (cs ++ [x]) n).
    cbn in Ht. rewrite Ht, <- app_assoc. reflexivity.
Qed.

Lemma returns_bind {A B} (m : @M State Node A) (f : A -> @M State Node B)
    (b : State) a b1 o b2 :
  (exists t, m b = (Ok a, b1, t)) ->
  (exists t, f a b1 = (o, b2, t)) ->
  exists t, bind m f b = (o, b2, t).
Proof.
  intros [t1 H1] [t2 H2]. exists (t1 ++ t2). unfold bind.
  now rewrite H1, H2.
Qed.

Lemma browser_next_page pages c ts ks ls cs :
  exists t,
    next_page (locals ts ks ls cs (c + 2)) (at_page pages c)
    = if Nat.leb (c + 2) (length pages)
      then (Ok (Continue, locals ts ks ls cs (c + 3)),
            at_page pages (c + 1), t)
      else (Ok (Break, locals ts ks ls cs (c + 2)), at_page pages c, t).
Proof.
  unfold next_page, try_except_NoSuchElement, bind, driver_find_element,
    elem_find_element, click, sleep, call, ret.
  cbn [page_number find_element chrome session lifetime show Browser.open
       lookup feed].
  rewrite find_page_btn.
  replace (Nat.leb 1 (c + 2)) with true by (symmetry; apply Nat.leb_le; lia).
  cbn [andb].
  destruct (Nat.leb_spec (c + 2) (length pages)) as [Hle|Hgt].
  - replace (Nat.ltb (c + 2) (1 + length pages)) with true
      by (symmetry; apply Nat.ltb_lt; lia).
    cbn. replace (c + 2 - 1) with (c + 1) by lia.
    replace (c + 2 + 1) with (c + 3) by lia.
    unfold incr_page_number. cbn.
    replace (c + 2 + 1) with (c + 3) by lia. eauto.
  - replace (Nat.ltb (c + 2) (1 + length pages)) with false
      by (symmetry; apply Nat.ltb_ge; lia).
    cbn. eauto.
Qed.

Lemma browser_scrape_page pages c i ts ks ls cs :
  forallb resolves (listings (nth c pages empty_page)) = true ->
  let p := nth c pages empty_page in
  let ts' := ts ++ page_titles p in
  let ks' := ks ++ page_links p in
  let ls' := ls ++ captions p in
  let cs' := cs ++ descriptions p in
  exists t,
    scrape_page i (locals ts ks ls cs (c + 2)) (at_page pages c)
    = if Nat.leb (c + 2) (length pages)
      then (Ok (Continue, locals ts' ks' ls' cs' (c + 3)),
            at_page pages (c + 1), t)
      else (Ok (Break, locals ts' ks' ls' cs' (c + 2)), at_page pages c, t).
Proof.
  intros Hr p ts' ks' ls' cs'. unfold scrape_page.
  assert (forall A (x y : A) (bb : bool) w w' (m : @M State Node A),
            (exists t, m w = (if bb then (Ok x, w', t) else (Ok y, w, t))) ->
            exists o b2, (exists t, m w = (o, b2, t))
                         /\ o = (if bb then Ok x else Ok y)
                         /\ b2 = (if bb then w' else w)) as Hif.
  { intros A x y [|] w w' m [t Ht]; eauto 6. }
  destruct (Hif _ _ _ _ _ _ _
              (browser_next_page pages c ts' ks' ls' cs'))
    as (o & b2 & Hnext & Ho & Hb).
  enough (exists t,
    scrape_page i (locals ts ks ls cs (c + 2)) (at_page pages c)
    = (o, b2, t)) as [t Ht].
  { exists t. unfold scrape_page in Ht. rewrite Ht, Ho, Hb.
    now destruct (Nat.leb (c + 2) (length pages)). }
  unfold scrape_page.
  eapply returns_bind; [eexists; reflexivity|].
  eapply returns_bind; [eexists; reflexivity|].
  eapply returns_bind; [eexists; reflexivity|].
  eapply returns_bind; [eexists; reflexivity|].
  eapply returns_bind; [apply browser_collect_job_titles|].
  eapply returns_bind; [apply browser_collect_job_links; exact Hr|].
  eapply returns_bind; [apply browser_collect_job_locations|].
  eapply returns_bind; [apply browser_collect_company_names|].
  exact Hnext.
Qed.

Lemma nth_page_ok pages c :
  Forall (fun p => page_ok p = true) pages ->
  page_ok (nth c pages empty_page) = true.
Proof.
  intros H. destruct (Nat.lt_ge_cases c (length pages)) as [Hlt|Hge].
  - rewrite Forall_forall in H. apply H. now apply nth_In.
  - now rewrite nth_overflow.
Qed.

Lemma skipn_nth {A} (d : A) : forall c l,
  c < length l -> skipn c l = nth c l d :: skipn (S c) l.
Proof.
  induction c as [|c IH]; intros [|x l] H; simpl in *; try lia; auto.
  apply IH. lia.
Qed.

Lemma pages_from_step (pages : list Page) c k :
  c < length pages ->
  firstn (S k) (skipn c pages)
  = nth c pages empty_page :: firstn k (skipn (c + 1) pages).
Proof.
  intros H. rewrite (skipn_nth empty_page) by exact H.
  now rewrite Nat.add_1_r.
Qed.

Lemma pages_from_last {X} (f : Page -> list X) (pages : list Page) c k :
  f empty_page = [] ->
  length pages < c + 2 ->
  flat_map f (firstn (S k) (skipn c pages)) = f (nth c pages empty_page).
Proof.
  intros Hf H. destruct (Nat.lt_ge_cases c (length pages)) as [Hlt|Hge].
  - rewrite pages_from_step by exact Hlt.
    rewrite skipn_all2 by lia. rewrite firstn_nil. simpl.
    apply app_nil_r.
  - rewrite skipn_all2 by lia. rewrite nth_overflow by lia.
    now rewrite Hf.
Qed.

Lemma browser_scrape_pages_loop pages :
  Forall (fun p => page_ok p = true) pages ->
  forall k i c ts ks ls cs,
  let ps := firstn k (skipn c pages) in
  exists n b t,
    for_each_break (seq i k) scrape_page (locals ts ks ls cs (c + 2))
                   (at_page pages c)
    = (Ok (locals (ts ++ flat_map page_titles ps)
                  (ks ++ flat_map page_links ps)
                  (ls ++ flat_map captions ps)
                  (cs ++ flat_map descriptions ps) n), b, t).
Proof.
  intros Hok. induction k as [|k IH]; intros i c ts ks ls cs ps; subst ps.
  - cbn [seq for_each_break firstn flat_map]. rewrite !app_nil_r.
    unfold ret. eauto.
  - cbn [seq for_each_break].
    destruct (@browser_scrape_page pages c i ts ks ls cs
                (nth_page_ok c Hok)) as [t1 H1].
    cbv zeta in H1. unfold bind at 1.
    destruct (Nat.leb_spec (c + 2) (length pages)) as [Hle|Hgt];
      rewrite H1.
    + destruct (IH (S i) (c + 1)
                   (ts ++ page_titles (nth c pages empty_page))
                   (ks ++ page_links (nth c pages empty_page))
                   (ls ++ captions (nth c pages empty_page))
                   (cs ++ descriptions (nth c pages empty_page)))
        as (n & b & t2 & H2).
      cbv zeta in H2.
      replace (c + 1 + 2) with (c + 3) in H2 by lia.
      rewrite H2. rewrite pages_from_step by lia.
      cbn [flat_map]. rewrite !app_assoc. eauto.
    + unfold ret. rewrite !pages_from_last by (auto; lia). eauto.
Qed.

(** * The properties of the specification *)

(** ** Properties of every session, whatever the browser does *)

Section Claims.

Context {W E : Type} {driver : WebDriver W E}.

Local Abbreviation Event := (Event E).

(** C1.  In every session in which the lookup of the no-results
    sentinel succeeds, [scrape_jobs] hands no record to its caller (it
    returns [None]), the terminal reason is [NO_RESULTS], and the
    session makes exactly two calls, the sentinel lookup and one
    [print]: no scroll gesture and no call of the extraction pass. *)
Theorem no_results_session (w w1 : W) (no_matching_jobs : E) :
  find_element XPATH no_matching_jobs_xpath w = (Ok no_matching_jobs, w1) ->
  let r := scrape_jobs w in
  outcome r = Ok None
  /\ records (outcome r) = []
  /\ terminalReason (outcome r) (trace r) = Some NO_RESULTS
  /\ scroll_gestures (trace r) = 0
  /\ extraction_calls (trace r) = 0
  /\ trace r = [ returned (FindElement XPATH no_matching_jobs_xpath);
                 returned (Print msg_no_matching_jobs) ].
Proof.
  intros H r. subst r.
  unfold scrape_jobs, try_except_NoSuchElement, bind, driver_find_element,
    print, call, ret, outcome, trace.
  rewrite H. cbn. repeat split; reflexivity.
Qed.

(** C2.  In every session, however many pages the feed offers and
    whatever the browser answers, at most 4 iterations of the
    scroll-and-extract loop are started ([pagesVisited]), and at most 4
    extraction passes. *)
Theorem pages_visited_bounded (w : W) :
  MAX_PAGES = 4
  /\ pagesVisited (trace (scrape_jobs w)) <= MAX_PAGES
  /\ extraction_passes (trace (scrape_jobs w)) <= MAX_PAGES.
Proof.
  split; [reflexivity|]. change MAX_PAGES with 4. split.
  - apply (@scrape_jobs_bounded _ _ _ is_iteration_start);
      try (intros; reflexivity).
    apply scrape_page_iteration_starts.
  - apply (@scrape_jobs_bounded _ _ _ is_title_query);
      try (intros; reflexivity).
    apply scrape_page_title_queries.
Qed.

(** C5, as amended.  If a call of a session fails because the session
    is unreachable ([WebDriverException]), during an extraction pass or
    anywhere else, that call is the last call of the session: the loop
    stops at once and nothing is retried.  The exception leaves
    [scrape_jobs]: the caller receives no record and there is no
    terminal state. *)
Theorem session_failure_propagates (w : W) (pre post : list Event)
    (ev : Event) :
  trace (scrape_jobs w) = pre ++ ev :: post ->
  ev_exn ev = Some WebDriverException ->
  post = []
  /\ outcome (scrape_jobs w) = Raised WebDriverException
  /\ records (outcome (scrape_jobs w)) = []
  /\ terminalReason (outcome (scrape_jobs w)) (trace (scrape_jobs w)) = None.
Proof.
  intros Ht He.
  destruct (@session_failed_call W E driver w pre post ev _ Ht He)
    as [(_ & Hn & _) | (-> & [[Ho _] | (Hn & _)])]; try discriminate.
  rewrite Ho. auto.
Qed.

(** C7.  In every session, if a lookup of the pagination control (the
    [li] of the expected page, or the [button] in it) raises
    [NoSuchElementException], it is the last call of the session: no
    further iteration starts and nothing else happens; [scrape_jobs]
    returns its tuple and the terminal reason is [EXHAUSTED].  And
    every lookup of a page [li] is for page 2 plus the number of
    clicks that succeeded before it: the expected index moves only
    after a successful activation. *)
Theorem exhausted_pagination_stops (w : W) (pre post : list Event)
    (ev : Event) :
  trace (scrape_jobs w) = pre ++ ev :: post ->
  is_page_lookup ev = true ->
  ev_exn ev = Some NoSuchElementException ->
  post = []
  /\ (exists info, outcome (scrape_jobs w) = Ok (Some info))
  /\ terminalReason (outcome (scrape_jobs w)) (trace (scrape_jobs w))
     = Some EXHAUSTED
  /\ forall pre' ev' post' v,
       trace (scrape_jobs w) = pre' ++ ev' :: post' ->
       ev_call ev' = FindElement CSS_SELECTOR v ->
       v = page_btn_selector (2 + count is_click_ok pre').
Proof.
  intros Ht Hp He.
  assert (Hin : in_pagination ev = true).
  { unfold is_page_lookup in Hp. unfold in_pagination.
    destruct (ev_call ev); try discriminate; destruct by_;
      try discriminate; reflexivity. }
  assert (Hlast : post = []
                  /\ exists info, outcome (scrape_jobs w) = Ok (Some info)).
  { destruct (@session_failed_call W E driver w pre post ev _ Ht He)
      as [(_ & _ & Hc) | (-> & [[_ Hn] | (_ & _ & Hi)])].
    - unfold is_page_lookup in Hp. rewrite Hc in Hp. discriminate.
    - exfalso. now apply Hn.
    - auto. }
  destruct Hlast as [-> [info Ho]].
  split; [reflexivity|]. split; [eauto|]. split.
  - rewrite Ho, Ht. unfold terminalReason. rewrite rev_unit.
    unfold failed. now rewrite He.
  - intros pre' ev' post' v. apply session_page_lookup.
Qed.

(** C9.  Two runs of the scroll loop (lines 294-296) in direct
    succession, the second starting in the browser state the first
    left, each issue exactly 6 scroll gestures when they return,
    whatever the browser and the page are. *)
Theorem scroll_gestures_fixed (scroll_origin : ScrollOrigin) (w : W) :
  let once := scroll_to_bottom scroll_origin w in
  let again := scroll_to_bottom scroll_origin (world once) in
  outcome once = Ok tt ->
  outcome again = Ok tt ->
  scroll_gestures (trace once) = 6 /\ scroll_gestures (trace again) = 6.
Proof.
  assert (H : forall w0,
             outcome (scroll_to_bottom scroll_origin w0) = Ok tt ->
             scroll_gestures (trace (scroll_to_bottom scroll_origin w0)) = 6).
  { intros w0.
    unfold scroll_to_bottom, range, outcome, trace. simpl.
    unfold bind, perform_scroll, sleep, call, ret.
    repeat (destruct (scroll_from_origin _ _ _ _) as [[[]|?] ?]; simpl;
            try discriminate).
    reflexivity. }
  intros once again H1 H2. split; apply H; assumption.
Qed.

(** C10.  When the lookup of the no-results sentinel succeeds,
    [scrape_jobs] returns [None], and the caller's
    [export_to_csv(job_search_domain, *information)] raises
    [TypeError]; whenever [scrape_jobs] returns a tuple of four lists,
    the sentinel lookup had raised [NoSuchElementException]. *)
Theorem sentinel_returns_None (w : W) :
  (forall no_matching_jobs w1,
     find_element XPATH no_matching_jobs_xpath w = (Ok no_matching_jobs, w1) ->
     outcome (scrape_jobs w) = Ok None
     /\ forall job_search_domain,
          outcome (scrape_and_export job_search_domain w) = Raised TypeError)
  /\ (forall info,
        outcome (scrape_jobs w) = Ok (Some info) ->
        fst (find_element XPATH no_matching_jobs_xpath w)
        = Raised NoSuchElementException).
Proof.
  split.
  - intros e w1 H.
    unfold scrape_and_export, scrape_jobs, try_except_NoSuchElement, bind,
      driver_find_element, print, call, ret, raise, outcome.
    rewrite H. cbn. auto.
  - intros info.
    unfold scrape_jobs, try_except_NoSuchElement, bind,
      driver_find_element, print, call, ret, outcome.
    destruct (find_element XPATH no_matching_jobs_xpath w) as [[e|[]] w1];
      cbn; try discriminate. reflexivity.
Qed.

End Claims.

(** ** Properties of sessions of the simulated browser *)

(** C8.  On a feed of result pages whose links all resolve,
    [scrape_jobs] returns, field by field, the concatenation of the
    first four pages in feed order, each page in the order of its
    nodes: the records of page N stand before those of page N+1, and
    within a page they stand in title-list order. *)
Theorem records_in_page_order (pages : list Page) :
  Forall (fun p => page_ok p = true) pages ->
  outcome (scrape_jobs (Browser.open pages))
  = Ok (Some (flat_map page_titles (firstn 4 pages),
              flat_map captions (firstn 4 pages),
              flat_map descriptions (firstn 4 pages),
              flat_map page_links (firstn 4 pages))).
Proof.
  intros Hok.
  destruct (@browser_scrape_pages_loop pages Hok 4 1 0 [] [] [] [])
    as (n & b & t & H).
  cbv zeta in H. cbn [skipn app Nat.add] in H.
  unfold scrape_jobs, try_except_NoSuchElement, bind at 1,
    driver_find_element, call, outcome.
  cbn [find_element chrome session lifetime Browser.open lookup
       no_results].
  replace (String.eqb no_matching_jobs_xpath no_matching_jobs_xpath)
    with true by reflexivity.
  cbn [fst snd exn_of].
  unfold scrape_pages, bind, print, call, ret.
  change (range 1 5) with (seq 1 4).
  change initial_locals with (locals [] [] [] [] 2).
  change (Browser.open pages) with (at_page pages 0) at 1.
  rewrite H. reflexivity.
Qed.

(** C3.  On a feed of five pages the session makes 4 extraction
    passes and ends because [range(1, 5)] is used up, but its last four
    calls look up the [li] of page 5, find its button, click it and
    sleep: the browser is left on the fifth page. *)
Theorem fifth_page_is_activated :
  let r := scrape_jobs (Browser.open five_pages) in
  extraction_passes (trace r) = 4
  /\ terminalReason (outcome r) (trace r) = Some CAP_REACHED
  /\ ends_with
       [ returned (FindElement CSS_SELECTOR (page_btn_selector 5));
         returned (ElementFindElement (PageLi 5) TAG_NAME "button");
         returned (ElementClick (PageButton 5));
         returned (Sleep 2) ]
       (trace r)
  /\ current (world r) = 4.
Proof. vm_compute. repeat split; reflexivity. Qed.

(** C4.  On a page with five title nodes, the third of which has no
    link to resolve, the link lookup of that node raises
    [NoSuchElementException] out of [scrape_jobs]: the session ends at
    that call and no record is returned. *)
Theorem unresolved_link_raises :
  let r := scrape_jobs (Browser.open [broken_link_page]) in
  outcome r = Raised NoSuchElementException
  /\ records (outcome r) = []
  /\ ends_with
       [ threw (ElementFindElement
                  (TitleNode {| listing_title := "c";
                                listing_anchor := None |})
                  LINK_TEXT "c")
               NoSuchElementException ]
       (trace r).
Proof. vm_compute. repeat split; reflexivity. Qed.

(** C5, counterexample.  A session on two pages that dies after 35
    calls: the sentinel lookup, the 25 calls of the first iteration,
    and of the second the footer lookup, the 6 gestures, the title
    query and the text of the first title.  The text of the second
    title raises [WebDriverException].  The first page had been
    extracted in full (the same feed cut to its first page returns its
    records), yet [scrape_jobs] raises, returns no record and reaches
    no [READ_FAILURE] state. *)
Lemma session_failure_loses_records :
  let r := scrape_jobs (open_for 35 two_pages) in
  ends_with
    [ threw (ElementText (TitleNode (job "p2 analyst")))
            WebDriverException ]
    (trace r)
  /\ is_extraction (threw (ElementText (TitleNode (job "p2 analyst")))
                          WebDriverException) = true
  /\ extraction_passes (trace r) = 2
  /\ outcome (scrape_jobs (Browser.open one_page))
     = Ok (Some (page_titles (page_of "p1"), captions (page_of "p1"),
                 descriptions (page_of "p1"), page_links (page_of "p1")))
  /\ outcome r = Raised WebDriverException
  /\ records (outcome r) = []
  /\ terminalReason (outcome r) (trace r) <> Some READ_FAILURE.
Proof. vm_compute. repeat split; try reflexivity. discriminate. Qed.

(** C6.  On a page with two title nodes and one caption,
    [scrape_jobs] returns lists of lengths 2, 1, 2 and 2, and the
    export raises [ValueError] after creating the folder: no frame is
    built and no file is written. *)
Theorem mismatched_lengths_raise :
  let r := scrape_and_export "ML" (Browser.open [lopsided_page]) in
  outcome (scrape_jobs (Browser.open [lopsided_page]))
  = Ok (Some (["a"; "b"], ["l1"], ["c1"; "c2"],
              page_links lopsided_page))
  /\ outcome r = Raised ValueError
  /\ ends_with [ returned (MakeDirs "Jobs/") ] (trace r).
Proof. vm_compute. repeat split; reflexivity. Qed.

(** ** Witnesses *)

(** C1 at a search that matched nothing. *)
Lemma no_results_session_witness :
  outcome (scrape_jobs nothing_found) = Ok None
  /\ scroll_gestures (trace (scrape_jobs nothing_found)) = 0.
Proof.
  pose proof (@no_results_session State Node chrome nothing_found
                nothing_found Sentinel eq_refl) as H.
  cbv zeta in H. split; apply H.
Defined.

(** C5 at the session that dies after 35 calls. *)
Lemma session_failure_propagates_witness :
  outcome (scrape_jobs (open_for 35 two_pages)) = Raised WebDriverException.
Proof.
  pose (ev := threw (ElementText (TitleNode (job "p2 analyst")))
                    WebDriverException).
  pose (pre := removelast (trace (scrape_jobs (open_for 35 two_pages)))).
  assert (Ht : trace (scrape_jobs (open_for 35 two_pages)) = pre ++ [ev])
    by (vm_compute; reflexivity).
  exact (proj1 (proj2 (@session_failure_propagates State Node chrome
                         (open_for 35 two_pages) pre [] ev Ht eq_refl))).
Defined.

(** C7 at a feed of one page: the button of page 2 does not exist. *)
Lemma exhausted_pagination_stops_witness :
  exists info, outcome (scrape_jobs (Browser.open one_page)) = Ok (Some info).
Proof.
  pose (ev := threw (FindElement CSS_SELECTOR (page_btn_selector 2))
                    NoSuchElementException : Event Node).
  pose (pre := removelast (trace (scrape_jobs (Browser.open one_page)))).
  assert (Ht : trace (scrape_jobs (Browser.open one_page)) = pre ++ [ev])
    by (vm_compute; reflexivity).
  exact (proj1 (proj2 (@exhausted_pagination_stops State Node chrome
                         (Browser.open one_page) pre [] ev Ht
                         eq_refl eq_refl))).
Defined.

(** C8 at a feed of two pages. *)
Lemma records_in_page_order_witness :
  outcome (scrape_jobs (Browser.open two_pages))
  = Ok (Some (flat_map page_titles (firstn 4 two_pages),
              flat_map captions (firstn 4 two_pages),
              flat_map descriptions (firstn 4 two_pages),
              flat_map page_links (firstn 4 two_pages))).
Proof.
  apply (@records_in_page_order two_pages).
  repeat constructor.
Defined.

(** C9 on the first page of a feed. *)
Lemma scroll_gestures_fixed_witness :
  scroll_gestures
    (trace (scroll_to_bottom (from_element Footer) (Browser.open one_page)))
  = 6.
Proof.
  exact (proj1 (@scroll_gestures_fixed State Node chrome
                  (from_element Footer) (Browser.open one_page)
                  eq_refl eq_refl)).
Defined.

(** * Further properties of the code *)

Section Further.

Context {W E : Type} {driver : WebDriver W E}.

Local Abbreviation M := (@M W E).
Local Abbreviation Event := (Event E).

(** ** Costs of a session *)

Lemma weight_app (f : Event -> nat) t1 t2 :
  weight f (t1 ++ t2) = weight f t1 + weight f t2.
Proof. unfold weight. now rewrite map_app, list_sum_app. Qed.

Lemma weight_indicator (p : Event -> bool) t :
  weight (indicator p) t = count p t.
Proof.
  induction t as [|ev t IH]; [reflexivity|].
  rewrite count_cons. unfold weight in *. simpl. rewrite IH.
  unfold indicator. reflexivity.
Qed.

Lemma costs_ret {A} (f : Event -> nat) (a : A) : costs f 0 (ret a : M A).
Proof. intros w. apply Nat.le_refl. Qed.

Lemma costs_call {A} (f : Event -> nat) n c (g : W -> Outcome A * W) :
  (forall x, f {| ev_call := c; ev_exn := x |} <= n) ->
  costs f n (call c g).
Proof.
  intros Hf w. unfold call, trace. destruct (g w) as [o w'].
  unfold weight; simpl. rewrite Nat.add_0_r. apply Hf.
Qed.

Lemma costs_bind {A B} (f : Event -> nat) n1 n2 (m : M A) (k : A -> M B) :
  costs f n1 m -> (forall a, costs f n2 (k a)) ->
  costs f (n1 + n2) (bind m k).
Proof.
  intros Hm Hk w. specialize (Hm w). unfold bind, trace in *.
  destruct (m w) as [[[a|e] w1] t1]; simpl in *; [|lia].
  specialize (Hk a w1). unfold trace in Hk.
  destruct (k a w1) as [[o w2] t2]; simpl in *.
  rewrite weight_app. lia.
Qed.

Lemma costs_try {A} (f : Event -> nat) n1 n2 (m h : M A) :
  costs f n1 m -> costs f n2 h ->
  costs f (n1 + n2) (try_except_NoSuchElement m h).
Proof.
  intros Hm Hh w. specialize (Hm w).
  unfold try_except_NoSuchElement, trace in *.
  destruct (m w) as [[[a|[]] w1] t1]; simpl in *; try lia.
  specialize (Hh w1). unfold trace in Hh.
  destruct (h w1) as [[o w2] t2]; simpl in *.
  rewrite weight_app. lia.
Qed.

Lemma costs_for_each {X L} (f : Event -> nat) n (body : X -> L -> M L) xs :
  (forall x l, costs f n (body x l)) ->
  forall l, costs f (length xs * n) (for_each xs body l).
Proof.
  intros Hb. induction xs as [|x xs IH]; intros l; simpl.
  - apply costs_ret.
  - apply costs_bind; auto.
Qed.

Lemma costs_for_each_break {X L} (f : Event -> nat) n
    (body : X -> L -> M (Ctl * L)) xs :
  (forall x l, costs f n (body x l)) ->
  forall l, costs f (length xs * n) (for_each_break xs body l).
Proof.
  intros Hb. induction xs as [|x xs IH]; intros l; simpl.
  - apply costs_ret.
  - apply costs_bind; auto.
    intros [[|] l'] w; [apply IH|].
    unfold ret, trace, weight; simpl. lia.
Qed.

Lemma costs_le {A} (f : Event -> nat) n n' (m : M A) :
  n <= n' -> costs f n m -> costs f n' m.
Proof. intros Hn Hm w. specialize (Hm w). lia. Qed.

Lemma costs_for_each_free {X L} (f : Event -> nat) (body : X -> L -> M L)
    xs :
  (forall x l, costs f 0 (body x l)) ->
  forall l, costs f 0 (for_each xs body l).
Proof.
  intros Hb l. eapply costs_le; [|apply costs_for_each, Hb].
  now rewrite Nat.mul_0_r.
Qed.

Section ScrapeJobsCosts.

(** The cost of [scrape_jobs] from the cost of its calls: [a] bounds a
    gesture by 550 pixels down, [b] the sleep after it, [c] the sleep
    after a click, and every other call on the session or the console
    is free. *)
Variable f : Event -> nat.
Variables a b c : nat.
Hypothesis gesture : forall e x,
  f {| ev_call := ScrollFromOrigin e 0 550; ev_exn := x |} <= a.
Hypothesis settle : forall x, f {| ev_call := Sleep 1; ev_exn := x |} <= b.
Hypothesis load : forall x, f {| ev_call := Sleep 2; ev_exn := x |} <= c.
Hypothesis free : forall call x,
  match call with
  | ScrollFromOrigin _ _ _ | Sleep _ | MakeDirs _ | ToCsv _ _ => True
  | _ => f {| ev_call := call; ev_exn := x |} = 0
  end.

Ltac free_call :=
  apply (@costs_call _ f 0); intros ?x;
  match goal with
  | |- f {| ev_call := ?call; ev_exn := ?x |} <= 0 =>
      let Hz := fresh in
      pose proof (free call x) as Hz; simpl in Hz; rewrite Hz;
      apply Nat.le_refl
  end.

Ltac free_block :=
  repeat first
    [ apply costs_ret
    | free_call
    | apply costs_for_each_free; intros
    | apply (@costs_bind _ _ f 0 0); [|intros] ].

Lemma scroll_to_bottom_costs scroll_origin :
  costs f (6 * (a + b)) (scroll_to_bottom scroll_origin).
Proof.
  unfold scroll_to_bottom.
  apply (@costs_for_each _ _ f (a + b) _ (range 0 6)). intros _ _.
  apply costs_bind; [|intros _]; apply costs_call; auto.
Qed.

Lemma next_page_costs l : costs f c (next_page l).
Proof.
  unfold next_page, driver_find_element, elem_find_element, click, sleep.
  apply (@costs_le _ f (c + 0)); [lia|].
  apply costs_try; [|apply costs_ret].
  apply (@costs_bind _ _ f 0 c); [free_call|intros li].
  apply (@costs_bind _ _ f 0 c); [free_call|intros page_button].
  apply (@costs_bind _ _ f 0 c); [free_call|intros _].
  apply (@costs_le _ f (c + 0)); [lia|].
  apply costs_bind; [apply costs_call, load | intros; apply costs_ret].
Qed.

Lemma scrape_page_costs i l : costs f (6 * (a + b) + c) (scrape_page i l).
Proof.
  unfold scrape_page.
  apply (@costs_bind _ _ f 0); [unfold print; free_call|intros _].
  apply (@costs_bind _ _ f 0);
    [unfold driver_find_element; free_call|intros footer].
  apply costs_bind; [apply scroll_to_bottom_costs|intros _].
  apply (@costs_bind _ _ f 0);
    [unfold driver_find_elements; free_call|intros job_titles].
  apply (@costs_bind _ _ f 0);
    [unfold collect_job_titles, text; free_block|intros l1].
  apply (@costs_bind _ _ f 0);
    [unfold collect_job_links, text, elem_find_element, get_attribute;
     free_block|intros l2].
  apply (@costs_bind _ _ f 0);
    [unfold collect_job_locations, driver_find_elements, text;
     free_block|intros l3].
  apply (@costs_bind _ _ f 0);
    [unfold collect_company_names, driver_find_elements, text;
     free_block|intros l4].
  apply next_page_costs.
Qed.

Lemma scrape_jobs_costs :
  costs f (4 * (6 * (a + b) + c)) (scrape_jobs : M _).
Proof.
  unfold scrape_jobs, scrape_pages.
  apply (@costs_try _ f 0 (4 * (6 * (a + b) + c))).
  - unfold driver_find_element, print. free_block.
  - apply (@costs_bind _ _ f 0 (4 * (6 * (a + b) + c)));
      [unfold print; free_call|intros _].
    apply (@costs_le _ f (4 * (6 * (a + b) + c) + 0)); [lia|].
    apply costs_bind; [|intros; apply costs_ret].
    apply (@costs_for_each_break _ _ f (6 * (a + b) + c) scrape_page
             (range 1 5)).
    apply scrape_page_costs.
Qed.

End ScrapeJobsCosts.

(** ** Lengths of the accumulators *)











Lemma weight_zero_In (f : Event -> nat) t ev :
  weight f t = 0 -> In ev t -> f ev = 0.
Proof.
  unfold weight. induction t as [|a t IH]; simpl; [tauto|].
  intros H [->|Hin]; [lia|]. apply IH; [lia|exact Hin].
Qed.

Lemma next_page_page_number l w c l' :
  outcome (next_page l w) = Ok (c, l') ->
  page_number l' = match c with
                   | Continue => page_number l + 1
                   | Break => page_number l
                   end.
Proof.
  unfold next_page, try_except_NoSuchElement, bind, driver_find_element,
    elem_find_element, click, sleep, call, ret, outcome.
  destruct (find_element _ _ w) as [[li|[]] w1]; simpl;
    [destruct (element_find_element _ _ _ w1) as [[btn|[]] w2]; simpl;
       [destruct (element_click _ w2) as [[u|[]] w3]; simpl|..]|..];
    intros [= <- <-]; reflexivity.
Qed.


(** ** Properties of every trace *)

Section Always.

Variable P : list Event -> Prop.
Hypothesis P_nil : P [].
Hypothesis P_app : forall t1 t2, P t1 -> P t2 -> P (t1 ++ t2).

Lemma always_ret {A} (a : A) : always P (ret a : M A).
Proof. intros w. exact P_nil. Qed.

Lemma always_bind {A B} (m : M A) (f : A -> M B) :
  always P m -> (forall a, always P (f a)) -> always P (bind m f).
Proof.
  intros Hm Hf w. specialize (Hm w). unfold bind, trace in *.
  destruct (m w) as [[[a|e] w1] t1]; simpl in *; [|exact Hm].
  specialize (Hf a w1). unfold trace in Hf.
  destruct (f a w1) as [[o w2] t2]. simpl in *. auto.
Qed.

Lemma always_try {A} (m h : M A) :
  always P m -> always P h -> always P (try_except_NoSuchElement m h).
Proof.
  intros Hm Hh w. specialize (Hm w).
  unfold try_except_NoSuchElement, trace in *.
  destruct (m w) as [[[a|[]] w1] t1]; simpl in *; try exact Hm.
  specialize (Hh w1). unfold trace in Hh.
  destruct (h w1) as [[o w2] t2]. simpl in *. auto.
Qed.

Lemma always_for_each {X L} (body : X -> L -> M L) xs :
  (forall x l, always P (body x l)) ->
  forall l, always P (for_each xs body l).
Proof.
  intros Hb. induction xs as [|x xs IH]; intros l; simpl.
  - apply always_ret.
  - apply always_bind; auto.
Qed.

Lemma always_for_each_break {X L} (body : X -> L -> M (Ctl * L)) xs :
  (forall x l, always P (body x l)) ->
  forall l, always P (for_each_break xs body l).
Proof.
  intros Hb. induction xs as [|x xs IH]; intros l; simpl.
  - apply always_ret.
  - apply always_bind; auto. intros [[] l']; [apply IH|apply always_ret].
Qed.

Hypothesis P_call : forall c x,
  match c with
  | ElementClick _ => True
  | _ => P [{| ev_call := c; ev_exn := x |}]
  end.
Hypothesis P_next_page : forall l, always P (next_page l).

Ltac always_call :=
  match goal with
  | |- always P (call ?c ?g) =>
      let w := fresh "w" in
      intros w; unfold call, trace; destruct (g w) as [? ?];
      exact (P_call c _)
  end.

Ltac always_tac :=
  repeat first
    [ apply always_ret
    | always_call
    | apply P_next_page
    | apply always_for_each; intros
    | apply always_bind; [|intros] ].

Lemma scrape_page_always i l : always P (scrape_page i l).
Proof.
  unfold scrape_page, scroll_to_bottom, collect_job_titles,
    collect_job_links, collect_job_locations, collect_company_names.
  unfold print, driver_find_element, driver_find_elements, perform_scroll,
    sleep, text, elem_find_element, get_attribute.
  always_tac.
Qed.

Lemma scrape_jobs_always : always P scrape_jobs.
Proof.
  unfold scrape_jobs, scrape_pages.
  apply always_try.
  - unfold driver_find_element, print. always_tac.
  - apply always_bind; [unfold print; always_tac|intros _].
    apply always_bind; [|intros; apply always_ret].
    apply always_for_each_break. intros. apply scrape_page_always.
Qed.

End Always.

Lemma paced_mono (t : list Event) : forall c c',
  paced c t -> c <= c' -> paced c' t.
Proof.
  induction t as [|ev t IH]; intros c c' H Hle; simpl in *; auto.
  destruct (is_click_ok ev).
  - destruct c as [|c]; [contradiction|].
    destruct c' as [|c']; [lia|]. apply (IH c); [exact H|lia].
  - destruct (is_li_lookup ev); eapply IH; eauto; lia.
Qed.

Lemma paced_app (t1 t2 : list Event) : forall c,
  paced c t1 -> paced 0 t2 -> paced c (t1 ++ t2).
Proof.
  induction t1 as [|ev t1 IH]; intros c H1 H2; simpl in *.
  - apply (paced_mono _ H2). lia.
  - destruct (is_click_ok ev).
    + destruct c; [contradiction|]. auto.
    + auto.
Qed.

Lemma paced_prefix (pre post : list Event) : forall c,
  paced c (pre ++ post) ->
  count (@is_click_ok E) pre <= c + count (@is_li_lookup E) pre.
Proof.
  induction pre as [|ev pre IH]; intros c H; simpl in H.
  - unfold count. simpl. lia.
  - rewrite !count_cons.
    destruct (is_click_ok ev) eqn:Hc.
    + destruct c as [|c]; [contradiction|]. apply IH in H.
      assert (is_li_lookup ev = false) as ->.
      { unfold is_click_ok in Hc. unfold is_li_lookup.
        destruct (ev_call ev); try discriminate. reflexivity. }
      lia.
    + apply IH in H. destruct (is_li_lookup ev); lia.
Qed.

Lemma next_page_paced l : always (paced 0) (next_page l : M _).
Proof.
  intros w.
  unfold next_page, try_except_NoSuchElement, bind, driver_find_element,
    elem_find_element, click, sleep, call, ret, trace.
  destruct (find_element _ _ w) as [[li|[]] w1]; simpl;
    [destruct (element_find_element _ _ _ w1) as [[btn|[]] w2]; simpl;
       [destruct (element_click _ w2) as [[u|[]] w3]; simpl|..]|..];
    exact I.
Qed.

Lemma scrape_jobs_paced (w : W) : paced 0 (trace (scrape_jobs w)).
Proof.
  apply (@scrape_jobs_always (paced 0)).
  - exact I.
  - intros t1 t2. apply paced_app.
  - intros [] x; simpl; exact I.
  - apply next_page_paced.
Qed.

(** ** Properties of [scrape_jobs] and [export_to_csv] *)


(** X2.  An iteration of the page loop that returns has only appended
    to the four lists, and has incremented [page_number] exactly when
    the loop goes on ([break] leaves it as it was). *)
Theorem iteration_only_appends (i : nat) (l l' : Locals) (c : Ctl) (w : W) :
  outcome (scrape_page i l w) = Ok (c, l') ->
  extends l l'
  /\ page_number l' = match c with
                      | Continue => page_number l + 1
                      | Break => page_number l
                      end.
Proof.
  intros H. split; [eapply scrape_page_appends; eauto|].
  unfold scrape_page in H.
  apply bind_Ok_inv in H. destruct H as (? & _ & H).
  apply bind_Ok_inv in H. destruct H as (footer & _ & H).
  apply bind_Ok_inv in H. destruct H as (? & _ & H).
  apply bind_Ok_inv in H. destruct H as (job_titles & _ & H).
  apply bind_Ok_inv in H. destruct H as (l1 & H1 & H).
  apply bind_Ok_inv in H. destruct H as (l2 & H2 & H).
  apply bind_Ok_inv in H. destruct H as (l3 & H3 & H).
  apply bind_Ok_inv in H. destruct H as (l4 & H4 & H).
  apply collect_job_titles_page_number in H1.
  apply collect_job_links_page_number in H2.
  apply collect_job_locations_page_number in H3.
  apply collect_company_names_page_number in H4.
  apply next_page_page_number in H. rewrite H.
  destruct c; congruence.
Qed.

(** X3.  [scrape_jobs] handles [NoSuchElementException] at the
    sentinel lookup and in the pagination [try] only: when any other
    call raises it (a link lookup of line 309, the footer lookup of
    line 292), that call is the last one and [scrape_jobs] raises. *)
Theorem unguarded_lookup_failure_raises (w : W) (pre post : list Event)
    (ev : Event) :
  trace (scrape_jobs w) = pre ++ ev :: post ->
  ev_exn ev = Some NoSuchElementException ->
  is_sentinel_lookup ev = false ->
  in_pagination ev = false ->
  post = [] /\ outcome (scrape_jobs w) = Raised NoSuchElementException.
Proof.
  intros Ht He Hs Hp.
  destruct (@session_failed_call W E driver w pre post ev _ Ht He)
    as [(_ & _ & Hc) | (-> & [[Ho _] | (_ & Hi & _)])].
  - unfold is_sentinel_lookup in Hs. rewrite Hc, String.eqb_refl in Hs.
    discriminate.
  - auto.
  - congruence.
Qed.

(** X4.  A session makes at most 24 scroll gestures (4 iterations of
    6), and every one of them scrolls by 0 pixels across and 550 pixels
    down. *)
Theorem scroll_gestures_bounded (w : W) :
  scroll_gestures (trace (scrape_jobs w)) <= 24
  /\ forall ev origin dx dy,
       In ev (trace (scrape_jobs w)) ->
       ev_call ev = ScrollFromOrigin origin dx dy ->
       dx = 0%Z /\ dy = 550%Z.
Proof.
  split.
  - unfold scroll_gestures. rewrite <- weight_indicator.
    apply (@scrape_jobs_costs (indicator is_scroll) 1 0 0);
      try (intros; unfold indicator; simpl; lia).
    intros [] x; simpl; auto.
  - intros ev origin dx dy Hin Hc.
    assert (H0 : weight (indicator is_other_scroll) (trace (scrape_jobs w))
                 = 0).
    { apply Nat.le_0_r.
      apply (@scrape_jobs_costs (indicator is_other_scroll)
               0 0 0); try (intros; unfold indicator; simpl; lia).
      intros [] x; simpl; auto. }
    apply (weight_zero_In _ _ _ H0) in Hin.
    unfold indicator, is_other_scroll in Hin. rewrite Hc in Hin.
    destruct (Z.eqb_spec dx 0), (Z.eqb_spec dy 550); simpl in Hin;
      try discriminate; auto.
Qed.

(** X5.  A session sleeps for at most 32 seconds in all: one second
    after each gesture and two after each page click, over at most four
    iterations. *)
Theorem sleep_bounded (w : W) :
  seconds_slept (trace (scrape_jobs w)) <= 32.
Proof.
  apply (@scrape_jobs_costs seconds 0 1 2);
    try (intros; unfold seconds; simpl; lia).
  intros [] x; simpl; auto.
Qed.


(** X11.  The pagination never looks beyond page 5: every lookup of a
    page [li] that [scrape_jobs] makes is for a page between 2 and
    5. *)
Theorem page_lookups_within_five (w : W) (pre post : list Event)
    (ev : Event) (v : string) :
  trace (scrape_jobs w) = pre ++ ev :: post ->
  ev_call ev = FindElement CSS_SELECTOR v ->
  exists page, v = page_btn_selector page /\ 2 <= page <= 5.
Proof.
  intros Ht Hv.
  exists (2 + count (@is_click_ok E) pre). split.
  - eapply session_page_lookup; eauto.
  - pose proof (scrape_jobs_paced w) as Hp. rewrite Ht in Hp.
    apply paced_prefix in Hp.
    assert (Hb : bounded (@is_li_lookup E) 4 (scrape_jobs : M _)).
    { apply scrape_jobs_bounded; try reflexivity.
      apply scrape_page_li_lookups. }
    specialize (Hb w). rewrite Ht, count_app, count_cons in Hb.
    unfold is_li_lookup at 2 in Hb. rewrite Hv in Hb. lia.
Qed.

End Further.

(** ** The notebook as a whole *)

Section NotebookRuns.

Context {W E : Type} {driver : WebDriver W E} {machine : Machine W E}.

Local Abbreviation M := (@M W E).
Local Abbreviation Event := (Event E).
Local Abbreviation Script := (@Script W E).
Local Abbreviation Step := (Step E).
Local Open Scope script_scope.

Lemma app_eq_mid {X} (t1 t2 : list X) : forall pre s post,
  t1 ++ t2 = pre ++ s :: post ->
  (exists post1, t1 = pre ++ s :: post1 /\ post = post1 ++ t2)
  \/ (exists pre2, pre = t1 ++ pre2 /\ t2 = pre2 ++ s :: post).
Proof.
  induction t1 as [|a t1 IH]; intros pre s post H; simpl in H.
  - right. exists pre. auto.
  - destruct pre as [|b pre]; simpl in H; injection H as -> H.
    + left. exists t1. subst. auto.
    + apply IH in H. destruct H as [(p1 & -> & ->)|(p2 & -> & ->)].
      * left. exists p1. auto.
      * right. exists p2. auto.
Qed.




Lemma and_then_Ok_inv {A B} (m : Script A) (f : A -> Script B) w b w2 t :
  and_then m f w = (Ok b, w2, t) ->
  exists a w1 t1 t2,
    m w = (Ok a, w1, t1) /\ f a w1 = (Ok b, w2, t2) /\ t = t1 ++ t2.
Proof.
  unfold and_then. destruct (m w) as [[[a|e] w1] t1]; [|discriminate].
  destruct (f a w1) as [[o w3] t2] eqn:Hf. intros [= -> -> <-].
  exists a, w1, t1, t2. auto.
Qed.

(** *** Steps that a script never makes *)

Lemma avoids_done {A} (p : Step -> bool) (a : A) :
  avoids p (done a : Script A).
Proof. intros w. constructor. Qed.

Lemma avoids_and_then {A B} (p : Step -> bool) (m : Script A)
    (f : A -> Script B) :
  avoids p m -> (forall a, avoids p (f a)) -> avoids p (and_then m f).
Proof.
  intros Hm Hf w. specialize (Hm w). unfold and_then, steps in *.
  destruct (m w) as [[[a|e] w1] t1]; simpl in *; [|exact Hm].
  specialize (Hf a w1). unfold steps in Hf.
  destruct (f a w1) as [[o w2] t2]. simpl in *.
  apply Forall_app. auto.
Qed.

Lemma avoids_in_session {A} (p : Step -> bool) (m : M A) :
  (forall ev, p (Session ev) = false) -> avoids p (in_session m).
Proof.
  intros H w. unfold in_session, steps.
  destruct (m w) as [[o w1] t]. simpl.
  apply Forall_forall. intros s Hin. apply in_map_iff in Hin.
  destruct Hin as (ev & <- & _). apply H.
Qed.

Lemma avoids_desk {A} (p : Step -> bool) (a : Action E)
    (f : W -> Outcome A * W) :
  (forall x, p (Desk a x) = false) -> avoids p (desk a f : Script A).
Proof.
  intros H w. unfold desk, steps. destruct (f w) as [o w1]. simpl.
  constructor; auto.
Qed.

Lemma avoids_ask (p : Step -> bool) hidden prompt
    (f : string -> W -> Outcome string * W) :
  (forall o, p (Prompt hidden prompt o) = false) ->
  avoids p (ask hidden prompt f : Script string).
Proof.
  intros H w. unfold ask, steps. destruct (f prompt w) as [o w1]. simpl.
  constructor; auto.
Qed.

Lemma avoids_call {A} (p : Step -> bool) (c : Call E)
    (f : W -> Outcome A * W) :
  (forall x, p (Session {| ev_call := c; ev_exn := x |}) = false) ->
  avoids p (in_session (call c f)).
Proof.
  intros H w. unfold in_session, call, steps. destruct (f w) as [o w1].
  simpl. constructor; auto.
Qed.

(** *** Scripts without a handler *)






(** *** [scrape_and_export] *)

Ltac split_steps H :=
  repeat match type of H with
    | _ :: _ = _ ++ _ :: _ =>
        apply cons_eq_app in H;
        destruct H as [(-> & <- & <-) | (? & -> & H)]
    | [] = _ ++ _ :: _ => apply nil_eq_app in H; contradiction
    end.

Lemma scrape_and_export_run d (w : W) :
  match scrape_jobs w with
  | (Raised e, w1, t1) => scrape_and_export d w = (Raised e, w1, t1)
  | (Ok None, w1, t1) => scrape_and_export d w = (Raised TypeError, w1, t1)
  | (Ok (Some (titles, locations, companies, links)), w1, t1) =>
      exists o,
        scrape_and_export d w
        = (o, w1,
           t1 ++ returned (MakeDirs "Jobs/")
              :: match o with
                 | Ok _ =>
                     [ returned
                         (ToCsv (os_path_join "Jobs/" (d ++ " Jobs.csv"))
                                (rows titles locations companies links)) ]
                 | Raised _ => []
                 end)
  end.
Proof.
  unfold scrape_and_export, bind.
  destruct (scrape_jobs w) as [[[[[[[a b] c] k]|]|e] w1] t1];
    try (unfold raise; rewrite app_nil_r); try reflexivity.
  unfold export_to_csv, bind, makedirs, to_csv, call, eval, pd_DataFrame,
    ret, raise.
  cbn [fst snd exn_of app].
  destruct (_ && _ && _)%bool; cbn [fst snd exn_of app];
    [exists (Ok tt) | exists (Raised ValueError)]; reflexivity.
Qed.

(** [scrape_jobs] makes no call on the file system. *)
Lemma scrape_jobs_no_file_call (w : W) (ev : Event) :
  In ev (trace (scrape_jobs w)) ->
  match ev_call ev with
  | MakeDirs _ | ToCsv _ _ => False
  | _ => True
  end.
Proof.
  intros Hin.
  pose (f := fun ev : Event =>
               match ev_call ev with
               | MakeDirs _ | ToCsv _ _ => 1
               | _ => 0
               end).
  assert (H0 : weight f (trace (scrape_jobs w)) = 0).
  { apply Nat.le_0_r.
    apply (@scrape_jobs_costs W E driver f 0 0 0);
      try (intros; unfold f; simpl; lia).
    intros [] x; simpl; auto. }
  apply (weight_zero_In _ _ _ H0) in Hin. unfold f in Hin.
  destruct (ev_call ev); auto; discriminate.
Qed.



Lemma scrape_and_export_to_csv d (w : W) (ev : Event) path df :
  In ev (trace (scrape_and_export d w)) ->
  ev_call ev = ToCsv path df ->
  path = os_path_join "Jobs/" (d ++ " Jobs.csv").
Proof.
  intros Hin Hc.
  pose proof (scrape_and_export_run d w) as Hr.
  pose proof (@scrape_jobs_no_file_call w ev) as Hn.
  rewrite Hc in Hn. unfold trace in *.
  destruct (scrape_jobs w) as [[[[[[[a b] c] k]|]|e1] w1] t1];
    cbn [fst snd] in *.
  - destruct Hr as [o Hr]. rewrite Hr in Hin. cbn [fst snd] in Hin.
    apply in_app_or in Hin. destruct Hin as [Hin|Hin]; [tauto|].
    destruct Hin as [<-|Hin]; [discriminate|].
    destruct o; [|contradiction].
    destruct Hin as [<-|[]]. simpl in Hc. congruence.
  - rewrite Hr in Hin. tauto.
  - rewrite Hr in Hin. tauto.
Qed.

Lemma scrape_and_export_Ok d (w w2 : W) u (t2 : list Event) :
  scrape_and_export d w = (Ok u, w2, t2) ->
  exists t' path df, t2 = t' ++ [returned (ToCsv path df)].
Proof.
  intros H. pose proof (scrape_and_export_run d w) as Hr.
  destruct (scrape_jobs w) as [[[[[[[a b] c] k]|]|e1] w1] t1];
    try congruence.
  destruct Hr as [o Hr]. rewrite H in Hr. injection Hr as <- _ ->.
  exists (t1 ++ [returned (MakeDirs "Jobs/")]). do 2 eexists.
  rewrite <- app_assoc. reflexivity.
Qed.

(** *** The cells *)


Ltac avoids_tac :=
  unfold send_keys, getpass, input, driver_find_element, click, sleep, print;
  repeat (apply avoids_and_then; [|intros]);
  first [ apply avoids_done
        | apply avoids_desk; intros; reflexivity
        | apply avoids_ask; intros; reflexivity
        | apply avoids_call; intros; reflexivity
        | apply avoids_in_session; intros; reflexivity ].

Lemma before_scraping_avoids_close : avoids is_close before_scraping.
Proof.
  unfold before_scraping, init_driver, navigate_to_linkedin, sign_in,
    perform_job_search.
  avoids_tac.
Qed.

Lemma before_scraping_avoids_to_csv : avoids is_to_csv before_scraping.
Proof.
  unfold before_scraping, init_driver, navigate_to_linkedin, sign_in,
    perform_job_search.
  avoids_tac.
Qed.

(** What [perform_job_search] returns is what was answered at its
    prompt, and it was typed into the search box. *)
Lemma perform_job_search_answer w d w1 t :
  perform_job_search w = (Ok d, w1, t) ->
  In (Prompt false job_search_prompt (Ok d)) t
  /\ exists search_box, In (Desk (SendKeys search_box d) None) t.
Proof.
  unfold perform_job_search. intros H.
  apply and_then_Ok_inv in H.
  destruct H as (search_box & wa & ta & tb & _ & H & ->).
  apply and_then_Ok_inv in H.
  destruct H as (answer & wb & tc & td & Ha & H & ->).
  apply and_then_Ok_inv in H.
  destruct H as ([] & wc & te & tf & Hs & H & ->).
  assert (answer = d) as ->.
  { repeat (apply and_then_Ok_inv in H;
            destruct H as (? & ? & ? & ? & _ & H & _)).
    unfold done in H. congruence. }
  unfold input, ask in Ha. unfold send_keys, desk in Hs.
  destruct (builtins_input job_search_prompt wa) as [[r|e] wa'];
    [|discriminate].
  destruct (element_send_keys search_box d wb) as [[[]|e] wb'];
    [|discriminate].
  injection Ha as -> _ <-. injection Hs as _ <-.
  split; [|exists search_box]; apply in_or_app; right; apply in_or_app.
  - left. simpl. auto.
  - right. apply in_or_app. left. simpl. auto.
Qed.

Lemma before_scraping_answer w d w1 t :
  before_scraping w = (Ok d, w1, t) ->
  In (Prompt false job_search_prompt (Ok d)) t
  /\ exists search_box, In (Desk (SendKeys search_box d) None) t.
Proof.
  unfold before_scraping. intros H.
  do 3 (apply and_then_Ok_inv in H;
        destruct H as (? & ? & ? & ? & _ & H & ->)).
  apply perform_job_search_answer in H. destruct H as (Hp & e & He).
  split; [|exists e]; repeat (apply in_or_app; right); assumption.
Qed.

(** The ways [main] can go: a cell before [scrape_jobs] raises;
    [scrape_jobs] or [export_to_csv] raises; or the export is made and
    [close_browser] runs. *)
Lemma main_run w :
  match before_scraping w with
  | (Raised e, w1, t1) => main w = (Raised e, w1, t1)
  | (Ok d, w1, t1) =>
      match scrape_and_export d w1 with
      | (Raised e, w2, t2) => main w = (Raised e, w2, t1 ++ map Session t2)
      | (Ok _, w2, t2) =>
          main w
          = (fst (driver_close w2), snd (driver_close w2),
             t1 ++ map Session t2
                ++ [ Session (returned (Print msg_end_of_job_search));
                     Desk CloseWindow (exn_of (fst (driver_close w2))) ])
      end
  end.
Proof.
  unfold main, before_scraping, and_then.
  destruct (init_driver w) as [[[[]|e] wa] ta]; [|reflexivity].
  destruct (navigate_to_linkedin wa) as [[[[]|e] wb] tb]; [|reflexivity].
  destruct (sign_in wb) as [[[[]|e] wc] tc]; [|reflexivity].
  destruct (perform_job_search wc) as [[[d|e] wd] td]; [|reflexivity].
  unfold close_browser, and_then, in_session, desk, print, call.
  destruct (scrape_and_export d wd) as [[[[]|e] w2] t2];
    cbn [fst snd exn_of app map].
  - destruct (driver_close w2) as [o w3]. cbn [fst snd].
    rewrite <- !app_assoc. reflexivity.
  - rewrite <- !app_assoc. reflexivity.
Qed.

(** *** Properties of [main] *)

(** X7. [driver.close()] is the last step of any run of [main] that
    makes it, and it comes right after the CSV file was written and
    [End Of Job Search!] was printed: a run that an exception cuts
    short never closes the browser window. *)
Theorem window_closed_only_after_export (w : W) (pre post : list Step)
    (s : Step) :
  steps (main w) = pre ++ s :: post ->
  is_close s = true ->
  post = []
  /\ exists pre' path df,
       pre = pre' ++ [ Session (returned (ToCsv path df));
                       Session (returned (Print msg_end_of_job_search)) ].
Proof.
  intros Ht Hc. pose proof (main_run w) as Hr.
  pose proof (before_scraping_avoids_close w) as Hb. unfold steps in *.
  assert (Hm : forall t2 : list Event,
             Forall (fun s : Step => is_close s = false) (map Session t2)).
  { intros t2. apply Forall_forall. intros x Hx. apply in_map_iff in Hx.
    destruct Hx as (ev & <- & _). reflexivity. }
  destruct (before_scraping w) as [[[d|e] w1] t1]; cbn [snd] in Hb.
  - destruct (scrape_and_export d w1) as [[[u|e] w2] t2] eqn:Hs;
      rewrite Hr in Ht; cbn [snd] in Ht.
    + apply scrape_and_export_Ok in Hs. destruct Hs as (t' & path & df & ->).
      apply app_eq_mid in Ht. destruct Ht as [(p1 & H1 & _)|(p2 & -> & H2)].
      { rewrite H1 in Hb. apply Forall_app in Hb. destruct Hb as [_ Hb].
        inversion Hb. congruence. }
      apply app_eq_mid in H2. destruct H2 as [(p1 & H1 & _)|(p3 & -> & H3)].
      { specialize (Hm (t' ++ [returned (ToCsv path df)])).
        rewrite H1 in Hm. apply Forall_app in Hm. destruct Hm as [_ Hm].
        inversion Hm. congruence. }
      split_steps H3; try discriminate.
      split; [reflexivity|].
      exists (t1 ++ map Session t'), path, df.
      rewrite map_app, <- !app_assoc. reflexivity.
    + exfalso.
      assert (Hall : Forall (fun s : Step => is_close s = false)
                       (t1 ++ map Session t2))
        by (apply Forall_app; auto).
      rewrite Ht in Hall. apply Forall_app in Hall. destruct Hall as [_ Hall].
      inversion Hall. congruence.
  - exfalso. rewrite Hr in Ht. cbn [snd] in Ht. rewrite Ht in Hb.
    apply Forall_app in Hb. destruct Hb as [_ Hb]. inversion Hb. congruence.
Qed.

(** X8. When the cells before [scrape_jobs] have run and the sentinel
    is on the page, [main] ends with [TypeError] right after
    [No matching jobs found.] is printed: nothing is exported,
    [close_browser] does not run. *)
Theorem no_results_ends_notebook (w w1 w2 : W) (job_search_domain : string)
    (t1 : list Step) (no_matching_jobs : E) :
  before_scraping w = (Ok job_search_domain, w1, t1) ->
  find_element XPATH no_matching_jobs_xpath w1 = (Ok no_matching_jobs, w2) ->
  main w
  = (Raised TypeError, w2,
     t1 ++ [ Session (returned (FindElement XPATH no_matching_jobs_xpath));
             Session (returned (Print msg_no_matching_jobs)) ]).
Proof.
  intros Hb Hs. pose proof (main_run w) as Hr. rewrite Hb in Hr.
  assert (Hx : scrape_and_export job_search_domain w1
               = (Raised TypeError, w2,
                  [ returned (FindElement XPATH no_matching_jobs_xpath);
                    returned (Print msg_no_matching_jobs) ])).
  { unfold scrape_and_export, scrape_jobs, try_except_NoSuchElement, bind,
      driver_find_element, print, call, ret, raise.
    rewrite Hs. reflexivity. }
  rewrite Hx in Hr. exact Hr.
Qed.

(** X9. Whenever [main] writes a CSV file, the file is named after the
    answer given at the job-search prompt, the same text that was typed
    into the search box: [os.path.join] of [Jobs/] and the answer
    followed by [ Jobs.csv]. *)
Theorem csv_named_after_answer (w : W) (pre post : list Step) (ev : Event)
    (path : string) (df : DataFrame) :
  steps (main w) = pre ++ Session ev :: post ->
  ev_call ev = ToCsv path df ->
  exists job_search_domain search_box,
    In (Prompt false job_search_prompt (Ok job_search_domain)) pre
    /\ In (Desk (SendKeys search_box job_search_domain) None) pre
    /\ path = os_path_join "Jobs/" (job_search_domain ++ " Jobs.csv").
Proof.
  intros Ht Hc. pose proof (main_run w) as Hr.
  pose proof (before_scraping_avoids_to_csv w) as Hb. unfold steps in *.
  assert (Hcsv : is_to_csv (Session ev) = true).
  { unfold is_to_csv. rewrite Hc. reflexivity. }
  destruct (before_scraping w) as [[[d|e] w1] t1] eqn:Hd; cbn [snd] in Hb.
  - apply before_scraping_answer in Hd. destruct Hd as (Hp & box & Hk).
    assert (Hin : exists pre2 rest,
               pre = t1 ++ pre2
               /\ In (Session ev)
                    (map Session (trace (scrape_and_export d w1)) ++ rest)
               /\ Forall (fun s : Step => is_to_csv s = false) rest).
    { unfold trace.
      destruct (scrape_and_export d w1) as [[[u|e] w2] t2];
        rewrite Hr in Ht; cbn [snd] in Ht;
        apply app_eq_mid in Ht;
        destruct Ht as [(p1 & H1 & _)|(p2 & -> & H2)];
        try (rewrite H1 in Hb; apply Forall_app in Hb; destruct Hb as [_ Hb];
             inversion Hb; congruence);
        exists p2; eexists; (split; [reflexivity|]); cbn [snd].
      - rewrite H2. split; [apply in_elt|]. repeat constructor.
      - rewrite <- (app_nil_r (map Session t2)) in H2. rewrite H2.
        split; [apply in_elt|]. constructor. }
    destruct Hin as (pre2 & rest & -> & Hin & Hrest).
    exists d, box. split; [|split]; try (apply in_or_app; left; assumption).
    apply in_app_or in Hin. destruct Hin as [Hin|Hin].
    + apply in_map_iff in Hin. destruct Hin as (ev' & [= ->] & Hin).
      eapply scrape_and_export_to_csv; eauto.
    + rewrite Forall_forall in Hrest. apply Hrest in Hin. congruence.
  - exfalso. rewrite Hr in Ht. cbn [snd] in Ht. rewrite Ht in Hb.
    apply Forall_app in Hb. destruct Hb as [_ Hb]. inversion Hb. congruence.
Qed.


End NotebookRuns.

(** ** Instances *)


Lemma iteration_only_appends_witness :
  exists l',
    outcome (scrape_page 1 initial_locals (Browser.open two_pages))
    = Ok (Continue, l')
    /\ extends initial_locals l' /\ page_number l' = 3.
Proof.
  pose (r := scrape_page 1 initial_locals (Browser.open two_pages)).
  pose (l' := match outcome r with
              | Ok (_, l) => l
              | Raised _ => initial_locals
              end).
  assert (H : outcome r = Ok (Continue, l')) by (vm_compute; reflexivity).
  exists l'. split; [exact H|].
  exact (@iteration_only_appends _ _ _ 1 initial_locals l' Continue _ H).
Defined.

Lemma unguarded_lookup_failure_raises_witness :
  outcome (scrape_jobs (Browser.open [broken_link_page]))
  = Raised NoSuchElementException.
Proof.
  pose (ev := threw (ElementFindElement
                       (TitleNode {| listing_title := "c";
                                     listing_anchor := None |})
                       LINK_TEXT "c") NoSuchElementException).
  pose (pre := removelast (trace (scrape_jobs
                                    (Browser.open [broken_link_page])))).
  assert (Ht : trace (scrape_jobs (Browser.open [broken_link_page]))
               = pre ++ [ev]) by (vm_compute; reflexivity).
  exact (proj2 (@unguarded_lookup_failure_raises State Node chrome
                  (Browser.open [broken_link_page]) pre [] ev Ht
                  eq_refl eq_refl eq_refl)).
Defined.


Lemma page_lookups_within_five_witness :
  exists page, page_btn_selector 5 = page_btn_selector page /\ 2 <= page <= 5.
Proof.
  pose (t := trace (scrape_jobs (Browser.open five_pages))).
  assert (Ht : trace (scrape_jobs (Browser.open five_pages))
               = firstn (length t - 4) t
                 ++ returned (FindElement CSS_SELECTOR (page_btn_selector 5))
                 :: skipn (length t - 3) t)
    by (vm_compute; reflexivity).
  exact (@page_lookups_within_five _ _ _ _ _ _ _ _ Ht eq_refl).
Defined.



Lemma window_closed_only_after_export_witness :
  exists pre' path df,
    removelast (steps (main (Desktop.start (Browser.open two_pages) typed)))
    = pre' ++ [ Session (returned (ToCsv path df));
                Session (returned (Print msg_end_of_job_search)) ].
Proof.
  pose (w0 := Desktop.start (Browser.open two_pages) typed).
  assert (Ht : steps (main w0)
               = removelast (steps (main w0)) ++ [Desk CloseWindow None])
    by (vm_compute; reflexivity).
  exact (proj2 (@window_closed_only_after_export _ _ _ _ w0 _ [] _ Ht
                  eq_refl)).
Defined.

Lemma no_results_ends_notebook_witness :
  final (main (Desktop.start Browser.nothing_found typed))
  = Raised TypeError.
Proof.
  pose (w0 := Desktop.start Browser.nothing_found typed).
  pose (r := before_scraping w0).
  assert (Hb : before_scraping w0 = (Ok "ML", snd (fst r), snd r))
    by (vm_compute; reflexivity).
  assert (Hs : find_element XPATH no_matching_jobs_xpath (snd (fst r))
               = (Ok (Desktop.SiteNode Browser.Sentinel), snd (fst r)))
    by (vm_compute; reflexivity).
  change (final (main w0) = Raised TypeError).
  rewrite (no_results_ends_notebook _ Hb Hs). reflexivity.
Defined.

Lemma csv_named_after_answer_witness :
  exists job_search_domain search_box,
    let t := steps (main (Desktop.start (Browser.open one_page) typed)) in
    In (Prompt false job_search_prompt (Ok job_search_domain))
       (firstn (length t - 3) t)
    /\ In (Desk (SendKeys search_box job_search_domain) None)
          (firstn (length t - 3) t)
    /\ "Jobs/ML Jobs.csv"
       = os_path_join "Jobs/" (job_search_domain ++ " Jobs.csv").
Proof.
  pose (w0 := Desktop.start (Browser.open one_page) typed).
  pose (t := steps (main w0)).
  pose (df := rows (page_titles (page_of "p1"))
                   (Browser.captions (page_of "p1"))
                   (Browser.descriptions (page_of "p1"))
                   (page_links (page_of "p1"))).
  assert (Ht : steps (main w0)
               = firstn (length t - 3) t
                 ++ Session (returned (ToCsv "Jobs/ML Jobs.csv" df))
                 :: skipn (length t - 2) t)
    by (vm_compute; reflexivity).
  exact (@csv_named_after_answer _ _ _ _ w0 _ _ _ _ df Ht eq_refl).
Defined.

